(** * ThemeService: dark / light theme coordination

    A shallow embedding of [src/app/theme/theme.service.ts] (the Angular
    service [ThemeService]) and of the class [ThemeSettings], with the parts
    of the host platform the service talks to: [localStorage], [JSON],
    [document.defaultView.matchMedia], the [Renderer2] DOM writes and the
    rxjs [fromEvent] / [takeUntil] / [Subject] subscription.

    JavaScript values are modelled as they are at run time, not as the
    TypeScript annotations promise: [getLocalStorageItem] returns [any], so
    that [settings] holds whatever [JSON.parse] made of the record, and
    [isSystemDark] can return [undefined].

    What is assumed of the host:
    - [localStorage] is there and has room: [getItem], [setItem] and
      [removeItem] do not throw;
    - the document has a [head] and a [body], and a window, when one is
      attached, has [matchMedia];
    - the service is the only one of the page (it is provided in [root]),
      and nobody else writes to its stylesheet element or listens through
      its subject;
    - the methods, being code of a class body, run in strict mode;
    - [setUserDefinedMode] is called with a boolean, as [setDarkMode] and
      [setLightMode] do. *)

From Stdlib Require Import ZArith Ascii String Decimal.
From stdpp Require Import gmap list.

Local Open Scope Z_scope.
Set Warnings "-register-all".

(** ** JavaScript strings

    A JavaScript string is a sequence of 16-bit code units. *)

Abbreviation jsstring := (list N).

Definition u16 (s : string) : jsstring := map N_of_ascii (list_ascii_of_string s).

(** The code unit as an ASCII character, when it is one. *)
Definition ascii_of (c : N) : option ascii :=
  if (c <? 128)%N then Some (ascii_of_N c) else None.

Definition QUOTE : N := 34.
Definition BACKSLASH : N := 92.

Definition digit_of (c : N) : option Z :=
  if ((48 <=? c) && (c <=? 57))%N then Some (Z.of_N c - 48) else None.

Definition hex_of (c : N) : option N :=
  if ((48 <=? c) && (c <=? 57))%N then Some (c - 48)%N
  else if ((97 <=? c) && (c <=? 102))%N then Some (c - 87)%N
  else if ((65 <=? c) && (c <=? 70))%N then Some (c - 55)%N
  else None.

Fixpoint codes_of_uint (d : uint) : jsstring :=
  match d with
  | Nil => []
  | D0 r => 48%N :: codes_of_uint r
  | D1 r => 49%N :: codes_of_uint r
  | D2 r => 50%N :: codes_of_uint r
  | D3 r => 51%N :: codes_of_uint r
  | D4 r => 52%N :: codes_of_uint r
  | D5 r => 53%N :: codes_of_uint r
  | D6 r => 54%N :: codes_of_uint r
  | D7 r => 55%N :: codes_of_uint r
  | D8 r => 56%N :: codes_of_uint r
  | D9 r => 57%N :: codes_of_uint r
  end.

(** Decimal digits of a non-negative integer. *)
Definition decimal (z : Z) : jsstring := codes_of_uint (N.to_uint (Z.to_N z)).

(** ** JavaScript values *)

Inductive JsValue : Type :=
| JUndefined
| JNull
| JBool (b : bool)
| JNumber (m e : Z)
    (* the Number nearest to m * 10^e, see [Number.of_decimal] *)
| JString (s : jsstring)
| JArray (elems : list JsValue) (props : list (jsstring * JsValue))
    (* indexed elements, and named own properties added by assignment *)
| JObject (props : list (jsstring * JsValue)).
    (* own enumerable data properties, in [OrdinaryOwnPropertyKeys] order *)

Inductive JsError := SyntaxError | TypeError.

(** The completion of an evaluation: a value, or a thrown exception. *)
Inductive Completion (A : Type) : Type :=
| Normal (a : A)
| Throw (e : JsError).
Arguments Normal {A} a.
Arguments Throw {A} e.

(** ** Numbers: IEEE 754 binary64, as far as JSON needs them *)

Module Number.

(** A non-negative binary64 value: [Finite M E] is M * 2^E with
    0 < M < 2^53 and -1074 <= E <= 971. *)
Inductive F64 := Zero | Infinity | Finite (M E : Z).

Definition F64_eqb (x y : F64) : bool :=
  match x, y with
  | Zero, Zero | Infinity, Infinity => true
  | Finite M E, Finite M' E' => (M =? M') && (E =? E')
  | _, _ => false
  end.

(** n / d rounded to the nearest integer, ties to even (n >= 0, d > 0). *)
Definition round_half_even (n d : Z) : Z :=
  let q := n / d in
  let r := n mod d in
  if 2 * r <? d then q
  else if d <? 2 * r then q + 1
  else if Z.even q then q else q + 1.

(** floor (log2 (a * 10^e10)) for a > 0. *)
Definition floor_log2 (a e10 : Z) : Z :=
  let n := a * 10 ^ Z.max e10 0 in
  let d := 10 ^ Z.max (- e10) 0 in
  let t := Z.log2 n - Z.log2 d in
  if d * 2 ^ Z.max t 0 <=? n * 2 ^ Z.max (- t) 0 then t else t - 1.

(** The binary64 value nearest to a * 10^e10 (a >= 0), round to nearest,
    ties to even, with gradual underflow and overflow to infinity. *)
Definition of_decimal (a e10 : Z) : F64 :=
  if a =? 0 then Zero
  else
    let E := Z.max (floor_log2 a e10 - 52) (-1074) in
    let n := a * 10 ^ Z.max e10 0 * 2 ^ Z.max (- E) 0 in
    let d := 10 ^ Z.max (- e10) 0 * 2 ^ Z.max E 0 in
    let M := round_half_even n d in
    if M =? 0 then Zero
    else
      let '(M, E) := if M =? 2 ^ 53 then (2 ^ 52, E + 1) else (M, E) in
      if 971 <? E then Infinity else Finite M E.

(** 10^n <= xn / xd *)
Definition le_pow10 (n xn xd : Z) : bool :=
  10 ^ Z.max n 0 * xd <=? xn * 10 ^ Z.max (- n) 0.

(** The n with 10^(n-1) <= xn / xd < 10^n, searched downwards from an
    upper bound. *)
Fixpoint magnitude (fuel : nat) (n xn xd : Z) : Z :=
  match fuel with
  | O => n
  | S fuel' =>
      if le_pow10 (n - 1) xn xd then n else magnitude fuel' (n - 1) xn xd
  end.

(** Number::toString, steps 5: the least k for which a k-digit decimal
    s * 10^p reads back as the same Number; of two such s the one closer
    to the value, and the even one on a tie. Returns (s, p). *)
Fixpoint shortest (fuel : nat) (k n M E xn xd : Z) : Z * Z :=
  let p := n - k in
  let lo := (xn * 10 ^ Z.max (- p) 0) / (xd * 10 ^ Z.max p 0) in
  let hi := lo + 1 in
  match fuel with
  | O => (lo, p)
  | S fuel' =>
      let ok_lo := F64_eqb (of_decimal lo p) (Finite M E) in
      let ok_hi := F64_eqb (of_decimal hi p) (Finite M E) in
      (* distances to the value, both scaled by xd * 10^max(-p,0) *)
      let x := xn * 10 ^ Z.max (- p) 0 in
      let u := xd * 10 ^ Z.max p 0 in
      let dlo := x - lo * u in
      let dhi := hi * u - x in
      match ok_lo, ok_hi with
      | true, true =>
          if dlo <? dhi then (lo, p)
          else if dhi <? dlo then (hi, p)
          else if Z.even lo then (lo, p) else (hi, p)
      | true, false => (lo, p)
      | false, true => (hi, p)
      | false, false => shortest fuel' (k + 1) n M E xn xd
      end
  end.

Fixpoint strip_zeros (fuel : nat) (s p : Z) : Z * Z :=
  match fuel with
  | O => (s, p)
  | S fuel' =>
      if (s mod 10 =? 0) && negb (s =? 0) then strip_zeros fuel' (s / 10) (p + 1)
      else (s, p)
  end.

Definition zeros (n : Z) : jsstring := replicate (Z.to_nat n) 48%N.

(** Number::toString, steps 6 to 10, for the digits of s and the
    position n of the decimal point. *)
Definition format (ds : jsstring) (n : Z) : jsstring :=
  let k := Z.of_nat (length ds) in
  if (k <=? n) && (n <=? 21) then ds ++ zeros (n - k)
  else if (0 <? n) && (n <=? 21) then
    take (Z.to_nat n) ds ++ u16 "." ++ drop (Z.to_nat n) ds
  else if (-6 <? n) && (n <=? 0) then
    u16 "0." ++ zeros (- n) ++ ds
  else
    let ex := n - 1 in
    let sign := if ex <? 0 then u16 "-" else u16 "+" in
    if k =? 1 then ds ++ u16 "e" ++ sign ++ decimal (Z.abs ex)
    else take 1 ds ++ u16 "." ++ drop 1 ds ++ u16 "e" ++ sign ++ decimal (Z.abs ex).

(** Number::toString of a positive finite value. *)
Definition toString_finite (M E : Z) : jsstring :=
  let xn := M * 2 ^ Z.max E 0 in
  let xd := 2 ^ Z.max (- E) 0 in
  let n := magnitude 700 310 xn xd in
  let '(s, p) := shortest 17 1 n M E xn xd in
  let '(s, p) := strip_zeros 20 s p in
  let ds := decimal s in
  format ds (p + Z.of_nat (length ds)).

(** ToBoolean of the Number denoted by m * 10^e: false exactly for zero
    (a JSON text never denotes NaN). *)
Definition truthy (m e : Z) : bool :=
  negb (F64_eqb (of_decimal (Z.abs m) e) Zero).

(** The JSON text of the Number denoted by m * 10^e: [ToString] when it is
    finite, [null] when it overflowed to an infinity. *)
Definition toJSON (m e : Z) : jsstring :=
  match of_decimal (Z.abs m) e with
  | Zero => u16 "0"
  | Infinity => u16 "null"
  | Finite M E => (if m <? 0 then u16 "-" else []) ++ toString_finite M E
  end.

End Number.

(** ** Objects and properties *)

(** ToBoolean. *)
Definition ToBoolean (v : JsValue) : bool :=
  match v with
  | JUndefined | JNull => false
  | JBool b => b
  | JNumber m e => Number.truthy m e
  | JString s => match s with [] => false | _ :: _ => true end
  | JArray _ _ | JObject _ => true
  end.

(** The array index a property key denotes, if it is the canonical decimal
    form of an integer below 2^32 - 1. *)
Fixpoint digits_value (acc : Z) (k : jsstring) : option Z :=
  match k with
  | [] => Some acc
  | c :: r =>
      match digit_of c with
      | Some d => digits_value (acc * 10 + d) r
      | None => None
      end
  end.

Definition array_index (k : jsstring) : option Z :=
  match k with
  | [] => None
  | [48%N] => Some 0
  | 48%N :: _ => None
  | _ =>
      match digits_value 0 k with
      | Some i => if i <? 2 ^ 32 - 1 then Some i else None
      | None => None
      end
  end.

Fixpoint lookup_own (k : jsstring) (props : list (jsstring * JsValue)) : option JsValue :=
  match props with
  | [] => None
  | (k', v) :: r => if decide (k' = k) then Some v else lookup_own k r
  end.

Fixpoint replace_own (k : jsstring) (v : JsValue) (props : list (jsstring * JsValue)) :=
  match props with
  | [] => []
  | (k', v') :: r =>
      if decide (k' = k) then (k', v) :: r else (k', v') :: replace_own k v r
  end.

(** A new array-index key goes before the first key that is a larger index
    or no index at all. *)
Fixpoint insert_index (i : Z) (k : jsstring) (v : JsValue) (props : list (jsstring * JsValue)) :=
  match props with
  | [] => [(k, v)]
  | (k', v') :: r =>
      match array_index k' with
      | Some j => if j <? i then (k', v') :: insert_index i k v r
                  else (k, v) :: (k', v') :: r
      | None => (k, v) :: (k', v') :: r
      end
  end.

(** CreateDataProperty on an ordinary object: an existing key keeps its
    place; a new array index is enumerated among the indices in ascending
    order, any other new key last. *)
Definition define_own (k : jsstring) (v : JsValue) (props : list (jsstring * JsValue)) :=
  match lookup_own k props with
  | Some _ => replace_own k v props
  | None =>
      match array_index k with
      | Some i => insert_index i k v props
      | None => props ++ [(k, v)]
      end
  end.

(** [v.k] for a key [k] that no built-in prototype defines and that is not
    an array index or [length] (the service reads [darkMode] only):
    undefined unless it is an own property; a TypeError on undefined and
    null. *)
Definition Get (v : JsValue) (k : jsstring) : Completion JsValue :=
  match v with
  | JUndefined | JNull => Throw TypeError
  | JObject props | JArray _ props => Normal (default JUndefined (lookup_own k props))
  | JBool _ | JNumber _ _ | JString _ => Normal JUndefined
  end.

(** [v.k = x] in strict mode code (class bodies are strict), for such a
    key: objects and arrays take the property; a primitive cannot, and the
    assignment throws a TypeError. *)
Definition Put (v : JsValue) (k : jsstring) (x : JsValue) : Completion JsValue :=
  match v with
  | JObject props => Normal (JObject (define_own k x props))
  | JArray elems props => Normal (JArray elems (define_own k x props))
  | JUndefined | JNull | JBool _ | JNumber _ _ | JString _ => Throw TypeError
  end.

(** ** JSON.stringify *)

Module JSON.

Definition hex_digit (n : N) : N := (if n <? 10 then 48 + n else 87 + n)%N.

(** [\uXXXX], lower-case hexadecimal. *)
Definition unicode_escape (c : N) : jsstring :=
  [BACKSLASH; 117%N;
   hex_digit (c / 4096 mod 16); hex_digit (c / 256 mod 16);
   hex_digit (c / 16 mod 16); hex_digit (c mod 16)]%N.

Definition is_lead (c : N) : bool := ((55296 <=? c) && (c <=? 56319))%N.
Definition is_trail (c : N) : bool := ((56320 <=? c) && (c <=? 57343))%N.

Definition quote_unit (c : N) : jsstring :=
  if (c =? 8)%N then [BACKSLASH; 98%N]
  else if (c =? 9)%N then [BACKSLASH; 116%N]
  else if (c =? 10)%N then [BACKSLASH; 110%N]
  else if (c =? 12)%N then [BACKSLASH; 102%N]
  else if (c =? 13)%N then [BACKSLASH; 114%N]
  else if (c =? QUOTE)%N then [BACKSLASH; QUOTE]
  else if (c =? BACKSLASH)%N then [BACKSLASH; BACKSLASH]
  else if (c <? 32)%N || is_lead c || is_trail c then unicode_escape c
  else [c].

(** QuoteJSONString without the enclosing quotes: by code point, so a
    surrogate pair is copied and a lone surrogate is escaped. *)
Fixpoint quote_body (s : jsstring) : jsstring :=
  match s with
  | [] => []
  | c :: r =>
      match r with
      | c' :: r' =>
          if is_lead c && is_trail c' then c :: c' :: quote_body r'
          else quote_unit c ++ quote_body r
      | [] => quote_unit c
      end
  end.

Definition quote (s : jsstring) : jsstring := QUOTE :: quote_body s ++ [QUOTE].

Fixpoint join (sep : jsstring) (parts : list jsstring) : jsstring :=
  match parts with
  | [] => []
  | [p] => p
  | p :: r => p ++ sep ++ join sep r
  end.

(** SerializeJSONProperty without replacer, toJSON or indentation: [None]
    is the result [undefined]. *)
Fixpoint serialize (v : JsValue) : option jsstring :=
  match v with
  | JUndefined => None
  | JNull => Some (u16 "null")
  | JBool true => Some (u16 "true")
  | JBool false => Some (u16 "false")
  | JNumber m e => Some (Number.toJSON m e)
  | JString s => Some (quote s)
  | JArray elems _ =>
      let parts :=
        (fix each (l : list JsValue) : list jsstring :=
           match l with
           | [] => []
           | x :: r => default (u16 "null") (serialize x) :: each r
           end) elems in
      Some (u16 "[" ++ join (u16 ",") parts ++ u16 "]")
  | JObject props =>
      let parts :=
        (fix each (l : list (jsstring * JsValue)) : list jsstring :=
           match l with
           | [] => []
           | (k, x) :: r =>
               match serialize x with
               | Some t => (quote k ++ u16 ":" ++ t) :: each r
               | None => each r
               end
           end) props in
      Some (u16 "{" ++ join (u16 ",") parts ++ u16 "}")
  end.

Definition stringify (v : JsValue) : option jsstring := serialize v.

(** *** JSON.parse

    The JSON grammar (ECMA-404) as a pushdown automaton that reads the
    text one code unit at a time: total, and every text is either parsed
    or a SyntaxError. *)

(** An open container. *)
Inductive Frame :=
| FArray (relems : list JsValue)
    (* the elements read so far, last first *)
| FObject (props : list (jsstring * JsValue)) (key : jsstring).
    (* the members defined so far, and the name awaiting its value *)

Inductive NumState :=
| NMinus   (* after the sign: a digit must follow *)
| NZero    (* after a leading 0 *)
| NInt     (* in the integer digits *)
| NDot     (* after the point: a digit must follow *)
| NFrac    (* in the fraction digits *)
| NE       (* after e or E: a sign or a digit must follow *)
| NESign   (* after the exponent sign: a digit must follow *)
| NExp.    (* in the exponent digits *)

Inductive Lex :=
| LValue (first : bool)
    (* a value is expected; [first]: right after an opening bracket,
       where the array may also close *)
| LKey (first : bool)
    (* a member name is expected; [first]: right after an opening
       brace, where the object may also close *)
| LColon
| LAfter                     (* after a value inside a container *)
| LDone (v : JsValue)        (* after the top-level value *)
| LString (is_key : bool) (rev : jsstring)
| LEscape (is_key : bool) (rev : jsstring)
| LUnicode (is_key : bool) (rev : jsstring) (todo : nat) (acc : N)
| LLiteral (rest : jsstring) (v : JsValue)
| LNum (st : NumState) (neg : bool) (mant scale : Z) (eneg : bool) (ex : Z).

Definition PState : Type := list Frame * Lex.

Definition is_ws (c : N) : bool :=
  ((c =? 32) || (c =? 9) || (c =? 10) || (c =? 13))%N.

(** A completed value goes to the innermost open container. *)
Definition deliver (v : JsValue) (stack : list Frame) : PState :=
  match stack with
  | [] => ([], LDone v)
  | FArray relems :: st => (FArray (v :: relems) :: st, LAfter)
  | FObject props key :: st => (FObject (define_own key v props) [] :: st, LAfter)
  end.

Definition number_value (neg : bool) (mant scale : Z) (eneg : bool) (ex : Z) : JsValue :=
  JNumber (if neg then - mant else mant) ((if eneg then - ex else ex) - scale).

Definition step_value (stack : list Frame) (first : bool) (c : N) : option PState :=
  if is_ws c then Some (stack, LValue first)
  else if (c =? QUOTE)%N then Some (stack, LString false [])
  else
    match ascii_of c with
    | Some "{"%char => Some (FObject [] [] :: stack, LKey true)
    | Some "["%char => Some (FArray [] :: stack, LValue true)
    | Some "]"%char =>
        match first, stack with
        | true, FArray _ :: st => Some (deliver (JArray [] []) st)
        | _, _ => None
        end
    | Some "-"%char => Some (stack, LNum NMinus true 0 0 false 0)
    | Some "0"%char => Some (stack, LNum NZero false 0 0 false 0)
    | Some "t"%char => Some (stack, LLiteral (u16 "rue") (JBool true))
    | Some "f"%char => Some (stack, LLiteral (u16 "alse") (JBool false))
    | Some "n"%char => Some (stack, LLiteral (u16 "ull") JNull)
    | _ =>
        match digit_of c with
        | Some d => Some (stack, LNum NInt false d 0 false 0)
        | None => None
        end
    end.

Definition step_key (stack : list Frame) (first : bool) (c : N) : option PState :=
  if is_ws c then Some (stack, LKey first)
  else if (c =? QUOTE)%N then Some (stack, LString true [])
  else
    match ascii_of c, first, stack with
    | Some "}"%char, true, FObject props _ :: st => Some (deliver (JObject props) st)
    | _, _, _ => None
    end.

(** After a value: a comma, the closing bracket of the innermost
    container, or the end of the text. *)
Definition step_after (stack : list Frame) (c : N) : option PState :=
  if is_ws c then Some (stack, LAfter)
  else
    match ascii_of c, stack with
    | Some ","%char, FArray _ :: _ => Some (stack, LValue false)
    | Some ","%char, FObject _ _ :: _ => Some (stack, LKey false)
    | Some "]"%char, FArray relems :: st => Some (deliver (JArray (rev relems) []) st)
    | Some "}"%char, FObject props _ :: st => Some (deliver (JObject props) st)
    | _, _ => None
    end.

Definition step_closed (s : PState) (c : N) : option PState :=
  match s with
  | (stack, LAfter) => step_after stack c
  | (stack, LDone v) => if is_ws c then Some (stack, LDone v) else None
  | _ => None
  end.

Definition end_string (stack : list Frame) (is_key : bool) (rev : jsstring) : option PState :=
  let s := reverse rev in
  if is_key then
    match stack with
    | FObject props _ :: st => Some (FObject props s :: st, LColon)
    | _ => None
    end
  else Some (deliver (JString s) stack).

Definition step_escape (c : N) : option N :=
  if (c =? QUOTE)%N then Some QUOTE
  else
    match ascii_of c with
    | Some "\"%char => Some BACKSLASH
    | Some "/"%char => Some 47%N
    | Some "b"%char => Some 8%N
    | Some "f"%char => Some 12%N
    | Some "n"%char => Some 10%N
    | Some "r"%char => Some 13%N
    | Some "t"%char => Some 9%N
    | _ => None
    end.

Definition is_exp (c : N) : bool := ((c =? 101) || (c =? 69))%N.

Definition step_number (stack : list Frame) (st : NumState) (neg : bool)
    (mant scale : Z) (eneg : bool) (ex : Z) (c : N) : option PState :=
  let finish := step_closed (deliver (number_value neg mant scale eneg ex) stack) c in
  match st, digit_of c with
  | NMinus, Some d =>
      Some (stack, LNum (if d =? 0 then NZero else NInt) neg d 0 false 0)
  | NMinus, None => None
  | NZero, _ =>
      if (c =? 46)%N then Some (stack, LNum NDot neg mant scale eneg ex)
      else if is_exp c then Some (stack, LNum NE neg mant scale eneg ex)
      else finish
  | NInt, Some d => Some (stack, LNum NInt neg (mant * 10 + d) scale eneg ex)
  | NInt, None =>
      if (c =? 46)%N then Some (stack, LNum NDot neg mant scale eneg ex)
      else if is_exp c then Some (stack, LNum NE neg mant scale eneg ex)
      else finish
  | NDot, Some d => Some (stack, LNum NFrac neg (mant * 10 + d) (scale + 1) eneg ex)
  | NDot, None => None
  | NFrac, Some d => Some (stack, LNum NFrac neg (mant * 10 + d) (scale + 1) eneg ex)
  | NFrac, None =>
      if is_exp c then Some (stack, LNum NE neg mant scale eneg ex) else finish
  | NE, Some d => Some (stack, LNum NExp neg mant scale eneg d)
  | NE, None =>
      if (c =? 43)%N then Some (stack, LNum NESign neg mant scale false ex)
      else if (c =? 45)%N then Some (stack, LNum NESign neg mant scale true ex)
      else None
  | NESign, Some d => Some (stack, LNum NExp neg mant scale eneg d)
  | NESign, None => None
  | NExp, Some d => Some (stack, LNum NExp neg mant scale eneg (ex * 10 + d))
  | NExp, None => finish
  end.

Definition step (s : PState) (c : N) : option PState :=
  match s with
  | (stack, LValue first) => step_value stack first c
  | (stack, LKey first) => step_key stack first c
  | (stack, LColon) =>
      if is_ws c then Some (stack, LColon)
      else if (c =? 58)%N then Some (stack, LValue false)
      else None
  | (_, LAfter) | (_, LDone _) => step_closed s c
  | (stack, LString is_key rev) =>
      if (c =? QUOTE)%N then end_string stack is_key rev
      else if (c =? BACKSLASH)%N then Some (stack, LEscape is_key rev)
      else if (c <? 32)%N then None
      else Some (stack, LString is_key (c :: rev))
  | (stack, LEscape is_key rev) =>
      if (c =? 117)%N then Some (stack, LUnicode is_key rev 4 0)
      else
        match step_escape c with
        | Some u => Some (stack, LString is_key (u :: rev))
        | None => None
        end
  | (stack, LUnicode is_key rev todo acc) =>
      match hex_of c with
      | Some h =>
          let acc' := (acc * 16 + h)%N in
          match todo with
          | 1%nat => Some (stack, LString is_key (acc' :: rev))
          | _ => Some (stack, LUnicode is_key rev (pred todo) acc')
          end
      | None => None
      end
  | (stack, LLiteral rest v) =>
      match rest with
      | r :: rs =>
          if (c =? r)%N then
            match rs with
            | [] => Some (deliver v stack)
            | _ :: _ => Some (stack, LLiteral rs v)
            end
          else None
      | [] => None
      end
  | (stack, LNum st neg mant scale eneg ex) =>
      step_number stack st neg mant scale eneg ex c
  end.

Fixpoint run (s : PState) (text : jsstring) : option PState :=
  match text with
  | [] => Some s
  | c :: r =>
      match step s c with
      | Some s' => run s' r
      | None => None
      end
  end.

(** What the automaton holds when the text ends. *)
Definition finish (s : PState) : option JsValue :=
  match s with
  | ([], LDone v) => Some v
  | ([], LNum (NZero | NInt | NFrac | NExp) neg mant scale eneg ex) =>
      Some (number_value neg mant scale eneg ex)
  | _ => None
  end.

Definition parse (text : jsstring) : Completion JsValue :=
  match run ([], LValue false) text with
  | Some s =>
      match finish s with
      | Some v => Normal v
      | None => Throw SyntaxError
      end
  | None => Throw SyntaxError
  end.

End JSON.

(** ** The host environment *)

(** The window, as far as the service sees it: the state of the media query
    [(prefers-color-scheme: dark)] and the listeners for its [change]
    event. A listener registered through
    [fromEvent(..).pipe(takeUntil(subject)).subscribe(..)] is recorded by
    the identity of its notifier [Subject]; its callback is always the
    service's own. *)
Record Window := {
  prefersDark : bool;
  changeListeners : list nat
}.

Record HTMLLinkElement := {
  attributes : gmap jsstring jsstring;
  properties : gmap jsstring jsstring;
  inHead : bool
}.

(** The calls made on the [Renderer2]. *)
Inductive RendererCall :=
| CreateElement (tag : jsstring)
| SetAttribute (el : nat) (name value : jsstring)
| AppendChild (el : nat)
| SetProperty (el : nat) (name value : jsstring)
| AddClass (name : jsstring)
| RemoveClass (name : jsstring).

Record World := {
  localStorage : gmap jsstring jsstring;
  defaultView : option Window;       (* document.defaultView *)
  bodyClasses : list jsstring;       (* document.body.classList *)
  elements : list HTMLLinkElement;   (* the elements created so far *)
  subjects : nat;                    (* the Subjects created so far *)
  rendererCalls : list RendererCall  (* oldest first *)
}.

(** ** The service *)

Record ThemeService := {
  settings : JsValue;
  destructionSubject : option nat;
  _kendouiStylesheetHtmlElement : option nat
}.

(** Whether the application follows the operating system or is pinned to a
    choice of the user. The source has no such field: [mode] is a ghost
    variable, assigned where the code takes the one or the other path. *)
Inductive Mode := Override | Following.

Record State := {
  world : World;
  this : ThemeService;
  mode : Mode
}.

Definition M (A : Type) : Type := State -> Completion A * State.

Definition ret {A} (a : A) : M A := fun s => (Normal a, s).

Definition bind {A B} (c : M A) (k : A -> M B) : M B :=
  fun s =>
    match c s with
    | (Normal a, s') => k a s'
    | (Throw e, s') => (Throw e, s')
    end.

Notation "x <- c ;; k" := (bind c (fun x => k))
  (at level 100, c at next level, right associativity).
Notation "c ;; k" := (bind c (fun _ => k))
  (at level 100, right associativity).

Definition get_world : M World := fun s => (Normal (world s), s).
Definition get_this : M ThemeService := fun s => (Normal (this s), s).

Definition set_world (f : World -> World) : M unit :=
  fun s => (Normal tt, {| world := f (world s); this := this s; mode := mode s |}).

Definition set_this (f : ThemeService -> ThemeService) : M unit :=
  fun s => (Normal tt, {| world := world s; this := f (this s); mode := mode s |}).

Definition ghost_mode (m : Mode) : M unit :=
  fun s => (Normal tt, {| world := world s; this := this s; mode := m |}).

Definition lift {A} (c : Completion A) : M A := fun s => (c, s).

Fixpoint for_each {A} (l : list A) (body : A -> M unit) : M unit :=
  match l with
  | [] => ret tt
  | a :: r => body a ;; for_each r body
  end.

(** *** World updates *)

Definition with_localStorage (f : gmap jsstring jsstring -> gmap jsstring jsstring) (w : World) : World :=
  {| localStorage := f (localStorage w); defaultView := defaultView w;
     bodyClasses := bodyClasses w; elements := elements w;
     subjects := subjects w; rendererCalls := rendererCalls w |}.

Definition with_defaultView (f : option Window -> option Window) (w : World) : World :=
  {| localStorage := localStorage w; defaultView := f (defaultView w);
     bodyClasses := bodyClasses w; elements := elements w;
     subjects := subjects w; rendererCalls := rendererCalls w |}.

Definition with_subjects (n : nat) (w : World) : World :=
  {| localStorage := localStorage w; defaultView := defaultView w;
     bodyClasses := bodyClasses w; elements := elements w;
     subjects := n; rendererCalls := rendererCalls w |}.

(** A renderer call: the DOM after it, and the call logged. *)
Definition rendered (call : RendererCall) (classes : list jsstring)
    (els : list HTMLLinkElement) (w : World) : World :=
  {| localStorage := localStorage w; defaultView := defaultView w;
     bodyClasses := classes; elements := els;
     subjects := subjects w; rendererCalls := rendererCalls w ++ [call] |}.

Definition with_attribute (name value : jsstring) (el : HTMLLinkElement) :=
  {| attributes := <[name := value]> (attributes el);
     properties := properties el; inHead := inHead el |}.

Definition with_property (name value : jsstring) (el : HTMLLinkElement) :=
  {| attributes := attributes el;
     properties := <[name := value]> (properties el); inHead := inHead el |}.

Definition appended (el : HTMLLinkElement) :=
  {| attributes := attributes el; properties := properties el; inHead := true |}.

(** *** Renderer2 *)

Module renderer.

Definition createElement (tag : jsstring) : M nat :=
  w <- get_world ;;
  set_world (rendered (CreateElement tag) (bodyClasses w)
               (elements w ++ [{| attributes := ∅; properties := ∅; inHead := false |}])) ;;
  ret (length (elements w)).

Definition setAttribute (el : nat) (name value : jsstring) : M unit :=
  w <- get_world ;;
  set_world (rendered (SetAttribute el name value) (bodyClasses w)
               (alter (with_attribute name value) el (elements w))).

(** [appendChild(head, el)]. *)
Definition appendChild (el : nat) : M unit :=
  w <- get_world ;;
  set_world (rendered (AppendChild el) (bodyClasses w)
               (alter appended el (elements w))).

Definition setProperty (el : nat) (name value : jsstring) : M unit :=
  w <- get_world ;;
  set_world (rendered (SetProperty el name value) (bodyClasses w)
               (alter (with_property name value) el (elements w))).

(** [addClass(document.body, name)]: the class list is a set. *)
Definition addClass (name : jsstring) : M unit :=
  w <- get_world ;;
  set_world (rendered (AddClass name)
               (if decide (name ∈ bodyClasses w) then bodyClasses w
                else bodyClasses w ++ [name])
               (elements w)).

(** [removeClass(document.body, name)]. *)
Definition removeClass (name : jsstring) : M unit :=
  w <- get_world ;;
  set_world (rendered (RemoveClass name)
               (filter (fun c => c ≠ name) (bodyClasses w))
               (elements w)).

End renderer.

(** *** Subjects and the change event *)

(** [new Subject<void>()]. *)
Definition new_Subject : M nat :=
  w <- get_world ;;
  set_world (with_subjects (S (subjects w))) ;;
  ret (subjects w).

(** [fromEvent(mediaQueryList, 'change').pipe(takeUntil(subject)).subscribe(callback)]:
    one more listener for the change event, until [subject] emits. *)
Definition subscribe_change (subject : nat) : M unit :=
  set_world (with_defaultView (fun dv =>
    match dv with
    | Some win => Some {| prefersDark := prefersDark win;
                          changeListeners := changeListeners win ++ [subject] |}
    | None => None
    end)).

(** [subject.next()]: every subscription taken until [subject] ends, and
    its listener is removed. *)
Definition Subject_next (subject : nat) : M unit :=
  set_world (with_defaultView (fun dv =>
    match dv with
    | Some win => Some {| prefersDark := prefersDark win;
                          changeListeners := filter (fun n => n ≠ subject) (changeListeners win) |}
    | None => None
    end)).

(** [subject.complete()]: nothing is subscribed to the subject any more. *)
Definition Subject_complete (subject : nat) : M unit := ret tt.

Record MediaQueryListEvent := { matches : bool }.

(** ** ThemeService, method by method *)

Definition LIGHT_MODE_CSS_CLASS_NAME : jsstring := u16 "theme-alternate".
Definition SETTINGS_KEY : jsstring := u16 "theme".
Definition SYSTEM_DARK_MODE_MEDIA_QUERY : jsstring := u16 "(prefers-color-scheme: dark)".
Definition DARK_MODE : jsstring := u16 "darkMode".

(** [new ThemeSettings()]: the field initialiser sets [darkMode = false]. *)
Definition new_ThemeSettings : JsValue := JObject [(DARK_MODE, JBool false)].

(** [get kendouiStylesheetHtmlElement()] *)
Definition kendouiStylesheetHtmlElement : M nat :=
  t <- get_this ;;
  match _kendouiStylesheetHtmlElement t with
  | Some el => ret el
  | None =>
      el <- renderer.createElement (u16 "link") ;;
      set_this (fun t => {| settings := settings t;
                            destructionSubject := destructionSubject t;
                            _kendouiStylesheetHtmlElement := Some el |}) ;;
      renderer.setAttribute el (u16 "rel") (u16 "stylesheet") ;;
      renderer.appendChild el ;;
      ret el
  end.

Definition setLocalStorageItem (key : jsstring) (value : JsValue) : M unit :=
  let serializedValue :=
    (* an undefined result is stored as the string it converts to *)
    default (u16 "undefined") (JSON.stringify value) in
  set_world (with_localStorage (insert key serializedValue)).

Definition getLocalStorageItem (key : jsstring) : M JsValue :=
  w <- get_world ;;
  match localStorage w !! key with
  | Some serializedValue =>
      if ToBoolean (JString serializedValue) then lift (JSON.parse serializedValue)
      else ret JUndefined
  | None => ret JUndefined   (* getItem returned null *)
  end.

Definition removeLocalStorageItem (key : jsstring) : M unit :=
  set_world (with_localStorage (delete key)).

(** [this.document.defaultView?.matchMedia(..).matches!] *)
Definition isSystemDark : M JsValue :=
  w <- get_world ;;
  match defaultView w with
  | Some win => ret (JBool (prefersDark win))
  | None => ret JUndefined
  end.

Definition setKendoUiControlsMode (stylesheetFilePath : jsstring) : M unit :=
  el <- kendouiStylesheetHtmlElement ;;
  renderer.setProperty el (u16 "href") stylesheetFilePath.

Definition setMode (darkMode : JsValue) : M unit :=
  if ToBoolean darkMode then
    renderer.removeClass LIGHT_MODE_CSS_CLASS_NAME ;;
    setKendoUiControlsMode (u16 "kendoui-dark.css")
  else
    renderer.addClass LIGHT_MODE_CSS_CLASS_NAME ;;
    setKendoUiControlsMode (u16 "kendoui-light.css").

(** [this.settings.darkMode] *)
Definition settings_darkMode : M JsValue :=
  t <- get_this ;;
  lift (Get (settings t) DARK_MODE).

(** [this.settings.darkMode = value] *)
Definition assign_settings_darkMode (value : JsValue) : M unit :=
  t <- get_this ;;
  o <- lift (Put (settings t) DARK_MODE value) ;;
  set_this (fun t => {| settings := o;
                        destructionSubject := destructionSubject t;
                        _kendouiStylesheetHtmlElement := _kendouiStylesheetHtmlElement t |}).

Definition assign_settings (value : JsValue) : M unit :=
  set_this (fun t => {| settings := value;
                        destructionSubject := destructionSubject t;
                        _kendouiStylesheetHtmlElement := _kendouiStylesheetHtmlElement t |}).

Definition assign_destructionSubject (value : option nat) : M unit :=
  set_this (fun t => {| settings := settings t;
                        destructionSubject := value;
                        _kendouiStylesheetHtmlElement := _kendouiStylesheetHtmlElement t |}).

Definition apply : M unit :=
  darkMode <- settings_darkMode ;;
  setMode darkMode.

(** The callback subscribed to the change event. *)
Definition on_change (e : option MediaQueryListEvent) : M unit :=
  darkMode <- match e with
              | Some mediaqueryListEvent => ret (JBool (matches mediaqueryListEvent))
              | None => isSystemDark
              end ;;
  setMode darkMode.

Definition startSystemModeSynchronization : M unit :=
  t <- get_this ;;
  w <- get_world ;;
  match destructionSubject t, defaultView w with
  | None, Some _ =>
      subject <- new_Subject ;;
      assign_destructionSubject (Some subject) ;;
      subscribe_change subject
  | _, _ => ret tt
  end.

Definition stopSystemModeSynchronization : M unit :=
  t <- get_this ;;
  match destructionSubject t with
  | Some subject =>
      Subject_next subject ;;
      Subject_complete subject ;;
      assign_destructionSubject None
  | None => ret tt
  end.

Definition ngOnDestroy : M unit := stopSystemModeSynchronization.

Definition setSystemMode : M unit :=
  darkMode <- isSystemDark ;;
  setMode darkMode ;;
  startSystemModeSynchronization ;;
  removeLocalStorageItem SETTINGS_KEY ;;
  ghost_mode Following.

Definition setUserDefinedMode (darkMode : bool) : M unit :=
  setMode (JBool darkMode) ;;
  stopSystemModeSynchronization ;;
  assign_settings_darkMode (JBool darkMode) ;;
  t <- get_this ;;
  setLocalStorageItem SETTINGS_KEY (settings t) ;;
  ghost_mode Override.

Definition setLightMode : M unit := setUserDefinedMode false.

Definition setDarkMode : M unit := setUserDefinedMode true.

(** The service object before the constructor body runs: the field
    initialisers have run, [settings] is not assigned yet. *)
Definition blank : ThemeService :=
  {| settings := JUndefined; destructionSubject := None;
     _kendouiStylesheetHtmlElement := None |}.

Definition constructor_body : M unit :=
  v <- getLocalStorageItem SETTINGS_KEY ;;
  assign_settings v ;;
  t <- get_this ;;
  if negb (ToBoolean (settings t)) then
    assign_settings new_ThemeSettings ;;
    d <- isSystemDark ;;
    assign_settings_darkMode d ;;
    startSystemModeSynchronization ;;
    ghost_mode Following
  else
    ghost_mode Override.

(** [new ThemeService(document, rendererFactory)] in the world [w]. *)
Definition constructor (w : World) : Completion unit * State :=
  constructor_body {| world := w; this := blank; mode := Override |}.

(** ** What happens to the service *)

(** The calls the application makes on the service (see [AppComponent]),
    its destruction, and a change of the preference of the operating
    system. *)
Inductive Event :=
| Apply
| SetUserDefinedMode (darkMode : bool)
| SetDarkMode
| SetLightMode
| SetSystemMode
| IsSystemDark
| NgOnDestroy
| OsChange (dark : bool).

(** The operating system switches its colour scheme: the media query takes
    its new state and the window dispatches a change event to each
    listener in turn. *)
Definition os_change (dark : bool) : M unit :=
  w <- get_world ;;
  match defaultView w with
  | Some win =>
      set_world (with_defaultView (fun _ =>
        Some {| prefersDark := dark; changeListeners := changeListeners win |})) ;;
      for_each (changeListeners win) (fun _ => on_change (Some {| matches := dark |}))
  | None => ret tt
  end.

Definition perform (ev : Event) : M unit :=
  match ev with
  | Apply => apply
  | SetUserDefinedMode d => setUserDefinedMode d
  | SetDarkMode => setDarkMode
  | SetLightMode => setLightMode
  | SetSystemMode => setSystemMode
  | IsSystemDark => isSystemDark ;; ret tt
  | NgOnDestroy => ngOnDestroy
  | OsChange dark => os_change dark
  end.

(** The state after an event; what an operation did before it threw
    stays done. *)
Definition after (ev : Event) (s : State) : State := snd (perform ev s).

Definition run_events (evs : list Event) (s : State) : State :=
  foldl (fun s ev => after ev s) s evs.

(** *** Observations *)

(** The record persisted under the key [theme]. *)
Definition persisted (s : State) : option jsstring :=
  localStorage (world s) !! SETTINGS_KEY.

(** The live subscriptions to the preference of the operating system. *)
Definition subscriptions (s : State) : list nat :=
  match defaultView (world s) with
  | Some win => changeListeners win
  | None => []
  end.

(** The stylesheet the page links to through the element of the service. *)
Definition stylesheet (s : State) : option jsstring :=
  el ← _kendouiStylesheetHtmlElement (this s);
  e ← elements (world s) !! el;
  if inHead e then properties e !! u16 "href" else None.

(** Whether the body carries the light-mode marker class. *)
Definition light_marker (s : State) : bool :=
  bool_decide (LIGHT_MODE_CSS_CLASS_NAME ∈ bodyClasses (world s)).

(** The theme the page shows, when marker and stylesheet agree. *)
Definition shown_dark (s : State) : option bool :=
  match stylesheet s with
  | Some href =>
      if decide (href = u16 "kendoui-dark.css") then
        if light_marker s then None else Some true
      else if decide (href = u16 "kendoui-light.css") then
        if light_marker s then Some false else None
      else None
  | None => None
  end.

(** The element the service holds exists. *)
Definition well_formed (s : State) : Prop :=
  match _kendouiStylesheetHtmlElement (this s) with
  | Some el => is_Some (elements (world s) !! el) /\
               (forall e, elements (world s) !! el = Some e -> inHead e = true)
  | None => True
  end.

(** * What the properties are about *)

(** A page load: the store as the previous visit left it, a window (with
    the preference of the operating system) or none, the classes the body
    has in the markup; no element created and nothing subscribed yet. *)
Definition page_load (store : gmap jsstring jsstring) (window : option bool)
    (classes : list jsstring) : World :=
  {| localStorage := store;
     defaultView := (fun dark => {| prefersDark := dark; changeListeners := [] |}) <$> window;
     bodyClasses := classes;
     elements := [];
     subjects := 0;
     rendererCalls := [] |}.

(** The JSON text of the object whose one member is [darkMode], with the
    value [d]: how a [ThemeSettings] record is serialized. *)
Definition record_text (d : bool) : jsstring :=
  u16 "{" ++ [QUOTE] ++ u16 "darkMode" ++ [QUOTE] ++ u16 ":"
    ++ u16 (if d then "true" else "false") ++ u16 "}".

(** The two stylesheets. *)
Definition DARK_CSS : jsstring := u16 "kendoui-dark.css".
Definition LIGHT_CSS : jsstring := u16 "kendoui-light.css".

(** A JSON string literal, for the examples. *)
Definition quoted (s : string) : jsstring := QUOTE :: u16 s ++ [QUOTE].

(** Whether a window is attached to the document. *)
Definition has_window (s : State) : bool :=
  match defaultView (world s) with Some _ => true | None => false end.

(** The two states differ in the page only: same store, same window and
    subscriptions, same settings, same mode. *)
Definition same_logic (s s' : State) : Prop :=
  localStorage (world s') = localStorage (world s) /\
  defaultView (world s') = defaultView (world s) /\
  settings (this s') = settings (this s) /\
  destructionSubject (this s') = destructionSubject (this s) /\
  mode s' = mode s.

(** Every listener on the window is the one the service remembers. *)
Definition subscribed (s : State) : Prop :=
  subscriptions s =
    match destructionSubject (this s) with Some subject => [subject] | None => [] end.

(** What holds of every state of the service: the element it holds is in
    the page, the subscriptions are the one it remembers, and it remembers
    one in follow mode only. *)
Record Inv (s : State) : Prop := {
  inv_well_formed : well_formed s;
  inv_subscribed : subscribed s;
  inv_following : destructionSubject (this s) ≠ None -> mode s = Following
}.

(** The state in which the constructor body starts. *)
Definition start_of (w : World) : State :=
  {| world := w; this := blank; mode := Override |}.

(** What the service loads from the store: nothing, when there is no
    record, when the record is the empty string, or when it parses to a
    falsy value. *)
Definition nothing_stored (w : World) : Prop :=
  match localStorage w !! SETTINGS_KEY with
  | None => True
  | Some text =>
      text = [] \/ exists v, JSON.parse text = Normal v /\ ToBoolean v = false
  end.

(** The state the constructor leaves when it found nothing: settings fresh
    from the preference of the operating system, and a subscription when
    there is a window. *)
Definition following_start (w : World) : State :=
  match defaultView w with
  | Some win =>
      {| world := with_defaultView (fun _ =>
                    Some {| prefersDark := prefersDark win;
                            changeListeners := changeListeners win ++ [subjects w] |})
                    (with_subjects (S (subjects w)) w);
         this := {| settings := JObject [(DARK_MODE, JBool (prefersDark win))];
                    destructionSubject := Some (subjects w);
                    _kendouiStylesheetHtmlElement := None |};
         mode := Following |}
  | None =>
      {| world := w;
         this := {| settings := JObject [(DARK_MODE, JUndefined)];
                    destructionSubject := None;
                    _kendouiStylesheetHtmlElement := None |};
         mode := Following |}
  end.

(** A record is persisted exactly in override mode, none exactly in
    follow mode. *)
Definition record_iff_override (s : State) : Prop :=
  (is_Some (persisted s) <-> mode s = Override) /\
  (persisted s = None <-> mode s = Following).

(** Every operation of the list returned normally. *)
Fixpoint returning (evs : list Event) (s : State) : Prop :=
  match evs with
  | [] => True
  | ev :: r => fst (perform ev s) = Normal tt /\ returning r (after ev s)
  end.

(** In follow mode with a window, the subscription is there. *)
Definition live (s : State) : Prop :=
  has_window s = true -> mode s = Following ->
  destructionSubject (this s) ≠ None.

(** The page: what the Theme Applier writes. *)
Definition page (s : State) : list jsstring * list HTMLLinkElement * list RendererCall :=
  (bodyClasses (world s), elements (world s), rendererCalls (world s)).

(** The constructor treats the record as absent: it returns, with settings
    taken from the operating system, in follow mode. *)
Definition treated_as_absent (w : World) : Prop :=
  constructor w = (Normal tt, following_start w).

(** A page whose record is the text of one opening brace. *)
Definition corrupt_page : World :=
  page_load {[ SETTINGS_KEY := u16 "{" ]} (Some true) [].

(** A page whose record is the JSON text [null]. *)
Definition null_page : World :=
  page_load {[ SETTINGS_KEY := u16 "null" ]} (Some true) [].

(** A subscription is live exactly in follow mode. *)
Definition subscription_iff_following (s : State) : Prop :=
  subscriptions s ≠ [] <-> mode s = Following.

(** A first visit without a window, and one with a window. *)
Definition headless_page : World := page_load ∅ None [].
Definition first_page : World := page_load ∅ (Some true) [].

(** After [setUserDefinedMode(d)] the settings say [d], and so do the
    settings of a service constructed on any later page load over the same
    store. *)
Definition round_trip (d : bool) (s : State) : Prop :=
  let s1 := after (SetUserDefinedMode d) s in
  Get (settings (this s1)) DARK_MODE = Normal (JBool d) /\
  forall window classes, exists s2,
    constructor (page_load (localStorage (world s1)) window classes) = (Normal tt, s2) /\
    Get (settings (this s2)) DARK_MODE = Normal (JBool d).

(** A page whose record is the text of an empty array. *)
Definition array_page : World :=
  page_load {[ SETTINGS_KEY := u16 "[]" ]} (Some false) [].

(** The service constructed on that page. *)
Definition array_start : State :=
  {| world := array_page;
     this := {| settings := JArray [] []; destructionSubject := None;
                _kendouiStylesheetHtmlElement := None |};
     mode := Override |}.

(** The settings are a [ThemeSettings] record: an object whose one
    property is [darkMode]. *)
Definition is_ThemeSettings (v : JsValue) : Prop :=
  exists x, v = JObject [(DARK_MODE, x)].

(** ** For the rest of the service *)

(** The fields of the service that are not about the page. *)
Definition this_logic (s : State) : JsValue * option nat :=
  (settings (this s), destructionSubject (this s)).

(** The events that pin the theme to a choice of the user. *)
Definition is_override (ev : Event) : bool :=
  match ev with
  | SetUserDefinedMode _ | SetDarkMode | SetLightMode => true
  | _ => false
  end.

(** How many elements the renderer was asked to create. *)
Fixpoint created (calls : list RendererCall) : nat :=
  match calls with
  | [] => 0
  | CreateElement _ :: r => S (created r)
  | _ :: r => created r
  end.

(** The stylesheet element is a lazy singleton: before the first use there
    is no element and none was asked for; afterwards there is the one
    element, linked as a stylesheet and appended to the head, and it was
    asked for once. *)
Definition lazy_singleton (s : State) : Prop :=
  match _kendouiStylesheetHtmlElement (this s) with
  | None => elements (world s) = [] /\ created (rendererCalls (world s)) = 0%nat
  | Some el =>
      el = 0%nat /\ created (rendererCalls (world s)) = 1%nat /\
      exists e, elements (world s) = [e] /\ inHead e = true /\
                attributes e !! u16 "rel" = Some (u16 "stylesheet")
  end.

(** The operations that paint the page whenever they are called on a
    constructed service. *)
Definition painter (ev : Event) : bool :=
  match ev with
  | Apply | SetUserDefinedMode _ | SetDarkMode | SetLightMode | SetSystemMode => true
  | IsSystemDark | NgOnDestroy | OsChange _ => false
  end.

(** There is no stylesheet element yet: the service holds none, no element
    exists, and the renderer was asked for none. *)
Definition element_absent (s : State) : Prop :=
  _kendouiStylesheetHtmlElement (this s) = None /\
  elements (world s) = [] /\
  created (rendererCalls (world s)) = 0%nat.

(** The stylesheet element is there: the service holds it, it is the only
    element, appended to the head and linked as a stylesheet, and the
    renderer was asked to create an element exactly once. *)
Definition element_present (s : State) : Prop :=
  _kendouiStylesheetHtmlElement (this s) = Some 0%nat /\
  created (rendererCalls (world s)) = 1%nat /\
  exists e, elements (world s) = [e] /\ inHead e = true /\
            attributes e !! u16 "rel" = Some (u16 "stylesheet").

(** The page without the log of the renderer: the classes of the body, the
    elements, and the element the service holds. *)
Definition painted (s : State) : list jsstring * list HTMLLinkElement * option nat :=
  (bodyClasses (world s), elements (world s), _kendouiStylesheetHtmlElement (this s)).

(** What can be observed of the service: the record, the settings, the
    subject, the mode, the subscriptions, and the theme on the page. *)
Definition observed (s : State) :=
  (persisted s, settings (this s), destructionSubject (this s), mode s,
   subscriptions s, stylesheet s, light_marker s).

(** The record in the store is the serialized settings. *)
Definition record_agrees (s : State) : Prop :=
  persisted s = None \/
  exists b, persisted s = Some (record_text b) /\
            settings (this s) = JObject [(DARK_MODE, JBool b)] /\
            mode s = Override.

(** * Properties *)

Arguments u16 : simpl never.
Arguments LIGHT_MODE_CSS_CLASS_NAME : simpl never.
Arguments SETTINGS_KEY : simpl never.
Arguments DARK_MODE : simpl never.
Arguments JSON.parse : simpl never.
Arguments JSON.stringify : simpl never.
Arguments Number.truthy : simpl never.
Arguments record_text : simpl never.
Arguments Get : simpl never.
Arguments Put : simpl never.

(** ** Serialized records *)

Lemma stringify_record (d : bool) :
  JSON.stringify (JObject [(DARK_MODE, JBool d)]) = Some (record_text d).
Proof. destruct d; reflexivity. Qed.

Lemma parse_record (d : bool) :
  JSON.parse (record_text d) = Normal (JObject [(DARK_MODE, JBool d)]).
Proof. destruct d; reflexivity. Qed.

(** The empty string is no JSON text. *)
Lemma parse_empty : JSON.parse [] = Throw SyntaxError.
Proof. reflexivity. Qed.

(** ** The model on examples *)

Example number_texts :
  Number.toJSON 1 (-1) = u16 "0.1" /\
  Number.toJSON 150 (-2) = u16 "1.5" /\
  Number.toJSON 1 21 = u16 "1e+21" /\
  Number.toJSON 123456789012345678901 0 = u16 "123456789012345680000" /\
  Number.toJSON 1 (-7) = u16 "1e-7" /\
  Number.toJSON 5 (-324) = u16 "5e-324" /\
  Number.toJSON (-314159) (-5) = u16 "-3.14159" /\
  Number.toJSON 1 400 = u16 "null" /\
  Number.toJSON 1 (-400) = u16 "0".
Proof. vm_compute. repeat split. Qed.

Example number_truthiness :
  ToBoolean (JNumber 1 0) = true /\ ToBoolean (JNumber 0 3) = false /\
  ToBoolean (JNumber 1 (-400)) = false /\ ToBoolean (JNumber 3 (-324)) = true.
Proof. vm_compute. repeat split. Qed.

Example parse_values :
  JSON.parse (u16 " [1 , 2.5e1, true, null, [] ] ")
    = Normal (JArray [JNumber 1 0; JNumber 25 0; JBool true; JNull; JArray [] []] []) /\
  JSON.parse (quoted "a\nb") = Normal (JString (u16 "a" ++ [10%N] ++ u16 "b")) /\
  JSON.parse (u16 "-0") = Normal (JNumber 0 0).
Proof. vm_compute. repeat split. Qed.

Example parse_errors :
  JSON.parse (u16 "{") = Throw SyntaxError /\
  JSON.parse (u16 "[1,]") = Throw SyntaxError /\
  JSON.parse (u16 "01") = Throw SyntaxError /\
  JSON.parse (u16 "1.") = Throw SyntaxError /\
  JSON.parse (u16 "tru") = Throw SyntaxError /\
  JSON.parse (u16 "undefined") = Throw SyntaxError /\
  JSON.parse (u16 "{darkMode:true}") = Throw SyntaxError /\
  JSON.parse (u16 "[] []") = Throw SyntaxError.
Proof. vm_compute. repeat split. Qed.

(** Members come back in the order of [OrdinaryOwnPropertyKeys], a
    repeated name keeps its first place and its last value. *)
Example parse_member_order :
  JSON.parse (u16 "{" ++ quoted "b" ++ u16 ":1," ++ quoted "2" ++ u16 ":2,"
                ++ quoted "b" ++ u16 ":3," ++ quoted "1" ++ u16 ":{}}")
    = Normal (JObject [(u16 "1", JObject []); (u16 "2", JNumber 2 0); (u16 "b", JNumber 3 0)]).
Proof. vm_compute. reflexivity. Qed.

(** An array is serialized by its elements alone, an undefined member of
    an object is left out. *)
Example stringify_values :
  JSON.stringify (JArray [JNull; JUndefined] [(DARK_MODE, JBool true)])
    = Some (u16 "[null,null]") /\
  JSON.stringify (JObject [(DARK_MODE, JUndefined)]) = Some (u16 "{}") /\
  JSON.stringify (JObject [(u16 "a", JString (u16 "x" ++ [BACKSLASH; 10%N]))])
    = Some (u16 "{" ++ quoted "a" ++ u16 ":" ++ quoted "x\\\n" ++ u16 "}") /\
  JSON.stringify JUndefined = None.
Proof. vm_compute. repeat split. Qed.

(** Scenario 1 of the specification: no record, an operating system that
    prefers dark; after the constructor and [apply()] the dark stylesheet
    is linked and no record is written. *)
Example scenario_first_visit :
  let s := run_events [Apply] (snd (constructor (page_load ∅ (Some true) []))) in
  fst (constructor (page_load ∅ (Some true) [])) = Normal tt /\
  shown_dark s = Some true /\ stylesheet s = Some DARK_CSS /\
  persisted s = None /\ mode s = Following /\ subscriptions s = [0%nat].
Proof. vm_compute. repeat split. Qed.

(** Scenario 3: [setDarkMode()] persists the record, links the dark
    stylesheet and leaves nothing subscribed. *)
Example scenario_setDarkMode :
  let s := run_events [SetDarkMode] (snd (constructor (page_load ∅ (Some false) []))) in
  persisted s = Some (record_text true) /\ shown_dark s = Some true /\
  subscriptions s = [] /\ mode s = Override.
Proof. vm_compute. repeat split. Qed.

(** Scenario 4: in follow mode a change of the operating system from light
    to dark switches the page to the dark stylesheet. *)
Example scenario_system_change :
  let s0 := run_events [Apply] (snd (constructor (page_load ∅ (Some false) []))) in
  shown_dark s0 = Some false /\
  shown_dark (run_events [OsChange true] s0) = Some true.
Proof. vm_compute. repeat split. Qed.

(** Scenario 5: [setSystemMode()] in override mode (dark) with an operating
    system that prefers light switches to the light stylesheet, removes
    the record and subscribes. *)
Example scenario_setSystemMode :
  let s0 := snd (constructor (page_load {[ SETTINGS_KEY := record_text true ]} (Some false) [])) in
  let s := run_events [Apply; SetSystemMode] s0 in
  mode s0 = Override /\ shown_dark (run_events [Apply] s0) = Some true /\
  shown_dark s = Some false /\ persisted s = None /\
  subscriptions s = [0%nat] /\ mode s = Following.
Proof. vm_compute. repeat split. Qed.

(** Scenario 6: after [ngOnDestroy()] a change of the operating system
    calls the renderer no more. *)
Example scenario_teardown :
  let s := run_events [Apply; NgOnDestroy] (snd (constructor (page_load ∅ (Some false) []))) in
  rendererCalls (world (run_events [OsChange true] s)) = rendererCalls (world s) /\
  shown_dark (run_events [OsChange true] s) = Some false.
Proof. vm_compute. repeat split. Qed.

(** A primitive cannot take the property: with the record [true] in the
    store, [setUserDefinedMode] throws a TypeError after it has painted
    the page and stopped the subscription, and the store keeps the
    record. *)
Example primitive_settings :
  let s0 := snd (constructor (page_load {[ SETTINGS_KEY := u16 "true" ]} (Some false) [])) in
  settings (this s0) = JBool true /\
  fst (perform (SetUserDefinedMode true) s0) = Throw TypeError /\
  persisted (after (SetUserDefinedMode true) s0) = Some (u16 "true") /\
  shown_dark (after (SetUserDefinedMode true) s0) = Some true.
Proof. vm_compute. repeat split. Qed.

(** ** The theme on the page *)

Lemma light_class_removed (classes : list jsstring) :
  bool_decide (LIGHT_MODE_CSS_CLASS_NAME ∈
    filter (fun c => c ≠ LIGHT_MODE_CSS_CLASS_NAME) classes) = false.
Proof.
  apply bool_decide_eq_false. rewrite list_elem_of_filter. tauto.
Qed.

Lemma light_class_added (classes : list jsstring) :
  bool_decide (LIGHT_MODE_CSS_CLASS_NAME ∈
    (if decide (LIGHT_MODE_CSS_CLASS_NAME ∈ classes) then classes
     else classes ++ [LIGHT_MODE_CSS_CLASS_NAME])) = true.
Proof.
  apply bool_decide_eq_true. case_decide; [done|].
  apply elem_of_app. right. apply list_elem_of_singleton. done.
Qed.

(** What [setMode] does: it returns, touches the page only, and leaves the
    stylesheet and the marker class of the theme it was given. *)
Lemma setMode_spec (d : JsValue) (s : State) :
  exists s',
    setMode d s = (Normal tt, s') /\ same_logic s s' /\
    (well_formed s ->
     well_formed s' /\
     stylesheet s' = Some (if ToBoolean d then DARK_CSS else LIGHT_CSS) /\
     light_marker s' = negb (ToBoolean d)).
Proof.
  destruct s as [[ls dv bc els sj rc] [st ds el] m].
  unfold setMode, well_formed, stylesheet, light_marker.
  destruct (ToBoolean d), el as [el|]; cbn;
    (eexists; split; [reflexivity|]; split; [repeat split|]); cbn.
  all: try (intros [[e He] Hin]; specialize (Hin e He);
            rewrite list_lookup_alter_eq, He; cbn; rewrite Hin).
  all: try (intros _;
            rewrite !list_lookup_alter_eq, (list_lookup_middle els [] _ _ eq_refl); cbn).
  all: (split; [split; [eauto | intros e' [= <-]; done] |]).
  all: (split; [apply lookup_insert_eq |]).
  all: auto using light_class_removed, light_class_added.
Qed.

Arguments setMode : simpl never.

(** [setMode] runs, and the state after it is named; what is known about
    that state replaces it where it can. *)
Ltac run_setMode :=
  match goal with
  | |- context [setMode ?d ?s] =>
      let s1 := fresh "s" in
      let E := fresh "E" in
      let L := fresh "L" in
      let W := fresh "W" in
      destruct (setMode_spec d s) as (s1 & E & L & W);
      rewrite E;
      destruct s1 as [[? ? ? ? ? ?] [? ? ?] ?];
      unfold same_logic in L; cbn in L; destruct L as (-> & -> & -> & -> & ->);
      clear E; unfold well_formed, stylesheet, light_marker in W; cbn in W
  end.

(** ** Invariants of the service *)

Lemma filter_out_self (n : nat) : filter (fun k => k ≠ n) [n] = [].
Proof. cbn. case_decide; [congruence | done]. Qed.

Ltac open_state s :=
  destruct s as [[?ls [[?pd ?cl]|] ?bc ?els ?sj ?rc] [?st [?id|] ?el] ?m].

Ltac run_setModes := repeat (run_setMode; cbn).

Lemma for_each_one {A} (a : A) (body : A -> M unit) (s : State) :
  for_each [a] body s = match body a s with
                        | (Normal _, s') => (Normal tt, s')
                        | (Throw e, s') => (Throw e, s')
                        end.
Proof. cbn. unfold bind. destruct (body a s) as [[[]|e] s']; reflexivity. Qed.

Ltac unfold_ops :=
  unfold after, perform, setDarkMode, setLightMode, setUserDefinedMode,
    setSystemMode, apply, ngOnDestroy, os_change, bind; cbn;
  try rewrite for_each_one; unfold on_change, bind; cbn.

Ltac self_filter :=
  try match goal with
      | |- context [decide (?n ≠ ?n)] => destruct (decide (n ≠ n)); [congruence | reflexivity]
      end.

Lemma Inv_after (ev : Event) (s : State) : Inv s -> Inv (after ev s).
Proof.
  intros [Hwf Hsub Hfol].
  open_state s; unfold subscribed in Hsub; unfold well_formed in Hwf;
    cbn in Hsub, Hfol, Hwf; subst; try discriminate Hsub;
    destruct ev; unfold_ops.
  all: try (destruct (Get st DARK_MODE); cbn).
  all: run_setModes.
  all: try (destruct (Put st DARK_MODE _); cbn).
  all: split; [ unfold well_formed; cbn; try (apply W; exact Hwf); try exact Hwf
              | unfold subscribed; cbn; self_filter; try reflexivity
              | cbn; try tauto; try congruence ].
Qed.

Lemma Inv_run (evs : list Event) (s : State) : Inv s -> Inv (run_events evs s).
Proof.
  revert s. induction evs as [|ev evs IH]; intros s H; [exact H|].
  cbn. apply IH, Inv_after, H.
Qed.

(** ** The constructor, case by case *)

(** The record does not parse: the SyntaxError leaves the constructor. *)
Lemma constructor_throws (w : World) (text : jsstring) :
  localStorage w !! SETTINGS_KEY = Some text -> text ≠ [] ->
  JSON.parse text = Throw SyntaxError ->
  constructor w = (Throw SyntaxError, start_of w).
Proof.
  intros Hget Hne Hparse. unfold constructor, constructor_body, bind, getLocalStorageItem, bind.
  cbn. rewrite Hget. destruct text as [|c text]; [done|].
  cbn. unfold lift. rewrite Hparse. reflexivity.
Qed.

(** The record parses to a truthy value: it becomes the settings as it
    is. *)
Lemma constructor_found (w : World) (text : jsstring) (v : JsValue) :
  localStorage w !! SETTINGS_KEY = Some text ->
  JSON.parse text = Normal v -> ToBoolean v = true ->
  constructor w =
    (Normal tt,
     {| world := w;
        this := {| settings := v; destructionSubject := None;
                   _kendouiStylesheetHtmlElement := None |};
        mode := Override |}).
Proof.
  intros Hget Hparse Htrue. unfold constructor, constructor_body, bind, getLocalStorageItem, bind.
  cbn. rewrite Hget. destruct text as [|c text]; [discriminate Hparse|].
  cbn. unfold lift. rewrite Hparse. cbn. rewrite Htrue. reflexivity.
Qed.

Lemma constructor_fallback (w : World) :
  nothing_stored w -> constructor w = (Normal tt, following_start w).
Proof.
  unfold nothing_stored, constructor, constructor_body, bind, getLocalStorageItem, bind,
    following_start.
  destruct w as [ls dv bc els sj rc]. cbn.
  destruct (ls !! SETTINGS_KEY) as [text|].
  - intros [-> | (v & Hparse & Hfalse)].
    + cbn. destruct dv as [[pd cl]|]; reflexivity.
    + destruct text as [|c text]; [discriminate Hparse|].
      cbn. unfold lift. rewrite Hparse. cbn. rewrite Hfalse. cbn.
      destruct dv as [[pd cl]|]; reflexivity.
  - intros _. cbn. destruct dv as [[pd cl]|]; reflexivity.
Qed.

(** The constructor has these three cases and no other. *)
Lemma constructor_cases (w : World) :
  nothing_stored w \/
  (exists text v, localStorage w !! SETTINGS_KEY = Some text /\
                  JSON.parse text = Normal v /\ ToBoolean v = true) \/
  (exists text, localStorage w !! SETTINGS_KEY = Some text /\ text ≠ [] /\
                JSON.parse text = Throw SyntaxError).
Proof.
  unfold nothing_stored.
  destruct (localStorage w !! SETTINGS_KEY) as [text|]; [|by left].
  destruct text as [|c text]; [left; by left|].
  destruct (JSON.parse (c :: text)) as [v|[]] eqn:Hparse.
  - destruct (ToBoolean v) eqn:Hb.
    + right; left. eauto.
    + left. right. eauto.
  - right; right. eexists. repeat split; done.
  - exfalso. unfold JSON.parse in Hparse.
    destruct (JSON.run _ _) as [p|]; [destruct (JSON.finish p)|]; discriminate.
Qed.

Lemma Inv_constructor store window classes (s : State) :
  constructor (page_load store window classes) = (Normal tt, s) -> Inv s.
Proof.
  intros Hc.
  destruct (constructor_cases (page_load store window classes))
    as [H | [(text & v & Hget & Hparse & Hb) | (text & Hget & Hne & Hparse)]].
  - rewrite (constructor_fallback _ H) in Hc. injection Hc as <-.
    destruct window; split; cbn; try done.
  - rewrite (constructor_found _ _ _ Hget Hparse Hb) in Hc. injection Hc as <-.
    destruct window; split; cbn; try done.
  - rewrite (constructor_throws _ _ Hget Hne Hparse) in Hc. discriminate.
Qed.

(** ** The record and the mode *)

Lemma record_iff_override_intro (s : State) :
  (persisted s = None /\ mode s = Following) \/
  (is_Some (persisted s) /\ mode s = Override) ->
  record_iff_override s.
Proof.
  intros [[H1 H2] | [[x H1] H2]]; unfold record_iff_override;
    rewrite H1, H2; repeat split; intros H;
    try done; try (by destruct H); eauto.
Qed.

Lemma record_iff_override_elim (s : State) :
  record_iff_override s ->
  (persisted s = None /\ mode s = Following) \/
  (is_Some (persisted s) /\ mode s = Override).
Proof.
  intros [[H1 H2] [H3 H4]].
  destruct (mode s); [right | left]; split; auto.
Qed.

Ltac prelude s ev Hsub :=
  open_state s; unfold subscribed in Hsub; cbn in Hsub;
  try discriminate Hsub; subst; destruct ev; unfold_ops.

Lemma record_iff_override_after (ev : Event) (s : State) :
  Inv s -> record_iff_override s -> record_iff_override (after ev s).
Proof.
  intros [_ Hsub _] H. apply record_iff_override_elim in H.
  apply record_iff_override_intro. revert H. unfold persisted.
  prelude s ev Hsub.
  all: try (destruct (Get st DARK_MODE); cbn).
  all: run_setModes.
  all: try (destruct (Put st DARK_MODE _); cbn).
  all: rewrite ?lookup_insert_eq, ?lookup_delete_eq; try tauto; eauto.
Qed.

Lemma record_iff_override_run (evs : list Event) (s : State) :
  Inv s -> record_iff_override s -> record_iff_override (run_events evs s).
Proof.
  revert s. induction evs as [|ev evs IH]; intros s HI H; [exact H|].
  cbn. apply IH; [apply Inv_after, HI | apply record_iff_override_after; assumption].
Qed.

(** ** The subscription and the mode *)

Lemma live_after (ev : Event) (s : State) :
  Inv s -> ev ≠ NgOnDestroy -> fst (perform ev s) = Normal tt ->
  live s -> live (after ev s).
Proof.
  intros [_ Hsub _] Hev. unfold live, has_window.
  prelude s ev Hsub; try congruence.
  all: try (destruct (Get st DARK_MODE); cbn).
  all: run_setModes.
  all: try (destruct (Put st DARK_MODE _); cbn).
  all: try tauto; try congruence; try discriminate.
Qed.

Lemma live_run (evs : list Event) (s : State) :
  Inv s -> NgOnDestroy ∉ evs -> returning evs s -> live s ->
  live (run_events evs s).
Proof.
  revert s. induction evs as [|ev evs IH]; intros s HI Hno Hret H; [exact H|].
  cbn. destruct Hret as [Hr Hret].
  apply not_elem_of_cons in Hno as [Hne Hno].
  apply IH; auto using Inv_after. apply live_after; auto.
Qed.

Lemma window_after (ev : Event) (s : State) :
  Inv s -> has_window (after ev s) = has_window s.
Proof.
  intros [_ Hsub _]. unfold has_window.
  prelude s ev Hsub.
  all: try (destruct (Get st DARK_MODE); cbn).
  all: run_setModes.
  all: try (destruct (Put st DARK_MODE _); cbn).
  all: reflexivity.
Qed.

Lemma window_run (evs : list Event) (s : State) :
  Inv s -> has_window (run_events evs s) = has_window s.
Proof.
  revert s. induction evs as [|ev evs IH]; intros s HI; [reflexivity|].
  change (run_events (ev :: evs) s) with (run_events evs (after ev s)).
  rewrite IH by auto using Inv_after. apply window_after, HI.
Qed.

(** ** An override is not disturbed *)

Lemma quiet_after (ev : Event) (s : State) :
  ev ≠ SetSystemMode -> subscriptions s = [] -> subscriptions (after ev s) = [].
Proof.
  intros Hev. unfold subscriptions.
  open_state s; cbn; intros Hq; subst; destruct ev; unfold_ops; try congruence.
  all: try (destruct (Get st DARK_MODE); cbn).
  all: run_setModes.
  all: try (destruct (Put st DARK_MODE _); cbn).
  all: reflexivity.
Qed.

Lemma quiet_run (evs : list Event) (s : State) :
  SetSystemMode ∉ evs -> subscriptions s = [] -> subscriptions (run_events evs s) = [].
Proof.
  revert s. induction evs as [|ev evs IH]; intros s Hno H; [exact H|].
  apply not_elem_of_cons in Hno as [Hne Hno].
  cbn. apply IH; auto using quiet_after.
Qed.

Lemma quiet_os_change (dark : bool) (s : State) :
  subscriptions s = [] -> page (after (OsChange dark) s) = page s.
Proof.
  unfold subscriptions, page.
  open_state s; cbn; intros Hq; subst; unfold_ops; reflexivity.
Qed.

Lemma unsubscribed_by_setUserDefinedMode (d : bool) (s : State) :
  Inv s -> subscriptions (after (SetUserDefinedMode d) s) = [].
Proof.
  intros [_ Hsub _]. unfold subscriptions.
  open_state s; unfold subscribed in Hsub; cbn in Hsub;
    try discriminate Hsub; subst; unfold_ops.
  all: run_setModes.
  all: try (destruct (Put st DARK_MODE _); cbn).
  all: self_filter; reflexivity.
Qed.

(** ** Settings that are a ThemeSettings record *)

(** Such are the settings in every state reached from a store that has no
    record, or a record the service wrote. *)
Lemma ThemeSettings_after (ev : Event) (s : State) :
  Inv s -> is_ThemeSettings (settings (this s)) ->
  is_ThemeSettings (settings (this (after ev s))).
Proof.
  intros [_ Hsub _] [x Hx]. unfold is_ThemeSettings.
  assert (Hput : forall y, Put (JObject [(DARK_MODE, x)]) DARK_MODE y
                 = Normal (JObject [(DARK_MODE, y)])) by reflexivity.
  assert (Hget : Get (JObject [(DARK_MODE, x)]) DARK_MODE = Normal x) by reflexivity.
  prelude s ev Hsub; cbn in Hx; subst; rewrite ?Hget, ?Hput; cbn.
  all: run_setModes; rewrite ?Hput; cbn; eexists; reflexivity.
Qed.

Lemma ThemeSettings_reached store window classes (s0 : State) (evs : list Event) :
  store !! SETTINGS_KEY = None \/
  (exists b, store !! SETTINGS_KEY = Some (record_text b)) ->
  constructor (page_load store window classes) = (Normal tt, s0) ->
  is_ThemeSettings (settings (this (run_events evs s0))).
Proof.
  intros Hstore Hc.
  assert (HI : Inv s0) by (eapply Inv_constructor, Hc).
  assert (H0 : is_ThemeSettings (settings (this s0))).
  { set (w := page_load store window classes) in *.
    assert (Hs : localStorage w !! SETTINGS_KEY = store !! SETTINGS_KEY) by reflexivity.
    destruct Hstore as [Hn | [b Hb]].
    - assert (Hf : nothing_stored w) by (unfold nothing_stored; by rewrite Hs, Hn).
      rewrite (constructor_fallback w Hf) in Hc. injection Hc as <-.
      unfold following_start. destruct window; cbn; eexists; reflexivity.
    - rewrite Hb in Hs.
      rewrite (constructor_found w _ _ Hs (parse_record b) eq_refl) in Hc.
      injection Hc as <-. eexists; reflexivity. }
  clear Hc. revert s0 HI H0.
  induction evs as [|ev evs IH]; intros s0 HI H0; [exact H0|].
  cbn. apply IH; [apply Inv_after, HI | apply ThemeSettings_after; assumption].
Qed.

(** With such settings no operation throws. *)
Lemma returns_with_ThemeSettings (ev : Event) (s : State) :
  Inv s -> is_ThemeSettings (settings (this s)) ->
  fst (perform ev s) = Normal tt.
Proof.
  intros [_ Hsub _] [x Hx].
  assert (Hput : forall y, Put (JObject [(DARK_MODE, x)]) DARK_MODE y
                 = Normal (JObject [(DARK_MODE, y)])) by reflexivity.
  assert (Hget : Get (JObject [(DARK_MODE, x)]) DARK_MODE = Normal x) by reflexivity.
  open_state s; unfold subscribed in Hsub; cbn in Hsub;
    try discriminate Hsub; subst; cbn in Hx; subst; destruct ev;
    unfold perform, setDarkMode, setLightMode, setUserDefinedMode,
      setSystemMode, apply, ngOnDestroy, os_change, bind; cbn;
    try rewrite for_each_one; unfold on_change, bind; cbn;
    rewrite ?Hget, ?Hput; cbn.
  all: run_setModes; rewrite ?Hput; cbn; reflexivity.
Qed.

Lemma returning_run (evs : list Event) (s : State) :
  Inv s -> is_ThemeSettings (settings (this s)) -> returning evs s.
Proof.
  revert s. induction evs as [|ev evs IH]; intros s HI Hs; [exact I|].
  split; [by apply returns_with_ThemeSettings|].
  apply IH; [apply Inv_after, HI | by apply ThemeSettings_after].
Qed.

(** * The claims *)

(** ** C1: a record that cannot be deserialized *)

(** C1, counterexample: the record [{] is present and is no JSON text; the
    constructor does not treat it as absent, it throws the SyntaxError of
    [JSON.parse]. *)
Lemma C1_corrupt_record_throws :
  localStorage corrupt_page !! SETTINGS_KEY = Some (u16 "{") /\
  JSON.parse (u16 "{") = Throw SyntaxError /\
  fst (constructor corrupt_page) = Throw SyntaxError /\
  ~ treated_as_absent corrupt_page.
Proof.
  assert (Hget : localStorage corrupt_page !! SETTINGS_KEY = Some (u16 "{"))
    by reflexivity.
  assert (Hparse : JSON.parse (u16 "{") = Throw SyntaxError) by reflexivity.
  assert (Hc := constructor_throws corrupt_page (u16 "{") Hget ltac:(discriminate) Hparse).
  split; [exact Hget|]. split; [exact Hparse|]. split.
  - rewrite Hc. reflexivity.
  - unfold treated_as_absent. rewrite Hc. discriminate.
Qed.

(** C1, as the code has it: of the records that cannot be deserialized only
    the empty string is treated as absent; for every other one the
    constructor throws the SyntaxError to its caller, having changed
    nothing. *)
Theorem C1_unparsable_record (w : World) (text : jsstring) :
  localStorage w !! SETTINGS_KEY = Some text ->
  JSON.parse text = Throw SyntaxError ->
  (text = [] -> treated_as_absent w) /\
  (text ≠ [] -> constructor w = (Throw SyntaxError, start_of w)).
Proof.
  intros Hget Hparse. split.
  - intros ->. apply constructor_fallback. unfold nothing_stored.
    rewrite Hget. by left.
  - intros Hne. by apply constructor_throws with text.
Qed.

(** C1 on the page with the record of one opening brace. *)
Lemma C1_unparsable_record_witness :
  (u16 "{" = [] -> treated_as_absent corrupt_page) /\
  (u16 "{" ≠ [] -> constructor corrupt_page = (Throw SyntaxError, start_of corrupt_page)).
Proof.
  apply (C1_unparsable_record corrupt_page (u16 "{")); reflexivity.
Defined.

(** ** C2: a record is persisted exactly in override mode *)

(** C2, counterexample: with the record [null] the constructor returns in
    follow mode, subscribed to the operating system, and the record is
    still there. *)
Lemma C2_null_record_follows :
  constructor null_page = (Normal tt, following_start null_page) /\
  persisted (following_start null_page) = Some (u16 "null") /\
  mode (following_start null_page) = Following /\
  subscriptions (following_start null_page) = [0%nat] /\
  ~ record_iff_override (following_start null_page).
Proof.
  repeat split.
  intros [[H _] _].
  assert (Hm : mode (following_start null_page) = Override)
    by (apply H; eexists; reflexivity).
  discriminate Hm.
Qed.

(** C2, as the code has it: when the store at startup has no record, or
    the serialized [ThemeSettings] record of a boolean, which is what the
    service itself writes, the constructor returns, every operation after
    it returns normally, and in every state reached from there by any
    operations and changes of the operating system a record is persisted
    if and only if the application is in override mode, and none if and
    only if it follows the operating system. Since nothing throws, the
    mode is the one the last completed [setUserDefinedMode] or
    [setSystemMode] (or the constructor) entered, at whatever point of
    the method it is taken to change. *)
Theorem C2_record_iff_override store window classes (start : option bool) :
  store !! SETTINGS_KEY = record_text <$> start ->
  exists s0,
    constructor (page_load store window classes) = (Normal tt, s0) /\
    forall evs, returning evs s0 /\ record_iff_override (run_events evs s0).
Proof.
  intros Hstore.
  set (w := page_load store window classes).
  assert (Hs : localStorage w !! SETTINGS_KEY = record_text <$> start) by exact Hstore.
  assert (Hc : exists s0, constructor w = (Normal tt, s0) /\
                          is_ThemeSettings (settings (this s0)) /\
                          record_iff_override s0).
  { destruct start as [b|].
    - change (localStorage w !! SETTINGS_KEY = Some (record_text b)) in Hs.
      eexists. split; [exact (constructor_found w _ _ Hs (parse_record b) eq_refl)|].
      split; [eexists; reflexivity|].
      apply record_iff_override_intro. right. split; [|reflexivity].
      exists (record_text b). exact Hs.
    - change (localStorage w !! SETTINGS_KEY = None) in Hs.
      assert (Hn : nothing_stored w) by (unfold nothing_stored; by rewrite Hs).
      eexists. split; [exact (constructor_fallback w Hn)|].
      split; [unfold following_start; destruct window; eexists; reflexivity|].
      apply record_iff_override_intro. left. unfold persisted, following_start.
      destruct window; split; solve [exact Hs | reflexivity]. }
  destruct Hc as (s0 & Hc & Hshape & H0).
  exists s0. split; [exact Hc|].
  assert (HI : Inv s0) by (eapply Inv_constructor, Hc).
  intros evs. split.
  - by apply returning_run.
  - by apply record_iff_override_run.
Qed.

(** C2 on a page with the persisted record of [darkMode = true]. *)
Lemma C2_record_iff_override_witness :
  exists s0,
    constructor (page_load {[ SETTINGS_KEY := record_text true ]} (Some false) [])
      = (Normal tt, s0) /\
    forall evs, returning evs s0 /\ record_iff_override (run_events evs s0).
Proof.
  apply (C2_record_iff_override {[ SETTINGS_KEY := record_text true ]} (Some false) []
           (Some true)).
  apply lookup_singleton_eq.
Defined.

(** Outside that domain an operation can throw half way, and the state it
    leaves is of neither mode. With the record [true] and an operating
    system that prefers light: [apply()], [setSystemMode()], and then
    [setUserDefinedMode(true)] throws a TypeError after it has painted the
    page dark and dropped the subscription, before it writes the store.
    No record is persisted, as in follow mode; nothing is subscribed and a
    change of the operating system leaves the page dark, as in override
    mode. *)
Example primitive_record_history :
  let s0 := snd (constructor (page_load {[ SETTINGS_KEY := u16 "true" ]} (Some false) [])) in
  let s := run_events [Apply; SetSystemMode] s0 in
  fst (constructor (page_load {[ SETTINGS_KEY := u16 "true" ]} (Some false) [])) = Normal tt /\
  fst (perform (SetUserDefinedMode true) s) = Throw TypeError /\
  persisted (after (SetUserDefinedMode true) s) = None /\
  subscriptions (after (SetUserDefinedMode true) s) = [] /\
  shown_dark (after (SetUserDefinedMode true) s) = Some true /\
  fst (isSystemDark (after (SetUserDefinedMode true) s)) = Normal (JBool false) /\
  shown_dark (after (OsChange false) (after (SetUserDefinedMode true) s)) = Some true.
Proof. vm_compute. repeat split. Qed.

(** ** C3: the subscription and follow mode *)

(** C3, counterexample: after startup without a window the application is
    in follow mode and nothing is subscribed; with a window, it is in
    follow mode after [ngOnDestroy] and nothing is subscribed. *)
Lemma C3_following_without_subscription :
  (constructor headless_page = (Normal tt, following_start headless_page) /\
   mode (following_start headless_page) = Following /\
   subscriptions (following_start headless_page) = [] /\
   ~ subscription_iff_following (following_start headless_page)) /\
  (constructor first_page = (Normal tt, following_start first_page) /\
   subscriptions (following_start first_page) = [0%nat] /\
   mode (after NgOnDestroy (following_start first_page)) = Following /\
   subscriptions (after NgOnDestroy (following_start first_page)) = [] /\
   ~ subscription_iff_following (after NgOnDestroy (following_start first_page))).
Proof.
  split; repeat split.
  - intros [_ H]. apply H; reflexivity.
  - intros [_ H]. apply H; reflexivity.
Qed.

(** C3, as the code has it: in every reachable state a live subscription
    exists only in follow mode. In follow mode it does exist as long as a
    window is attached, [ngOnDestroy] has not been called and every
    operation has returned normally. Without a window nothing is ever
    subscribed, and after [ngOnDestroy] nothing is. *)
Theorem C3_subscription_and_mode store window classes (s0 : State) (evs : list Event) :
  constructor (page_load store window classes) = (Normal tt, s0) ->
  let s := run_events evs s0 in
  (subscriptions s ≠ [] -> mode s = Following) /\
  (window ≠ None -> NgOnDestroy ∉ evs -> returning evs s0 ->
   mode s = Following -> subscriptions s ≠ []) /\
  (window = None -> subscriptions s = []) /\
  subscriptions (after NgOnDestroy s) = [].
Proof.
  intros Hc s.
  assert (HI0 : Inv s0) by (eapply Inv_constructor, Hc).
  assert (HI : Inv s) by (apply Inv_run, HI0).
  assert (Hw : has_window s = match window with Some _ => true | None => false end).
  { unfold s. rewrite window_run by exact HI0.
    destruct (constructor_cases (page_load store window classes))
      as [H | [(text & v & Hget & Hparse & Hb) | (text & Hget & Hne & Hparse)]].
    - rewrite (constructor_fallback _ H) in Hc. injection Hc as <-.
      destruct window; reflexivity.
    - rewrite (constructor_found _ _ _ Hget Hparse Hb) in Hc. injection Hc as <-.
      destruct window; reflexivity.
    - rewrite (constructor_throws _ _ Hget Hne Hparse) in Hc. discriminate. }
  assert (Hl0 : live s0).
  { destruct (constructor_cases (page_load store window classes))
      as [H | [(text & v & Hget & Hparse & Hb) | (text & Hget & Hne & Hparse)]].
    - rewrite (constructor_fallback _ H) in Hc. injection Hc as <-.
      destruct window; unfold live; cbn; congruence.
    - rewrite (constructor_found _ _ _ Hget Hparse Hb) in Hc. injection Hc as <-.
      unfold live; cbn; congruence.
    - rewrite (constructor_throws _ _ Hget Hne Hparse) in Hc. discriminate. }
  destruct HI as [_ Hsub Hfol]. unfold subscribed in Hsub.
  repeat split.
  - intros Hne. apply Hfol. intros Hd. rewrite Hd in Hsub. auto.
  - intros Hwin Hno Hret Hm.
    assert (Hl : live s) by (apply live_run; auto).
    rewrite Hsub. destruct (destructionSubject (this s)) eqn:Hd; [discriminate|].
    exfalso. apply Hl; auto. rewrite Hw. destruct window; congruence.
  - intros ->. unfold has_window in Hw. unfold subscriptions.
    destruct (defaultView (world s)); [discriminate Hw | reflexivity].
  - revert Hsub. unfold subscriptions. clear.
    generalize s. clear s. intros s.
    open_state s; cbn; intros Hsub; try discriminate Hsub; subst; unfold_ops;
      self_filter; reflexivity.
Qed.

(** C3 on a first visit with a window, after three events. *)
Lemma C3_subscription_and_mode_witness :
  let s := run_events [SetDarkMode; OsChange false; SetSystemMode]
             (following_start first_page) in
  (subscriptions s ≠ [] -> mode s = Following) /\
  (Some true ≠ None -> NgOnDestroy ∉ [SetDarkMode; OsChange false; SetSystemMode] ->
   returning [SetDarkMode; OsChange false; SetSystemMode] (following_start first_page) ->
   mode s = Following -> subscriptions s ≠ []) /\
  (Some true = None -> subscriptions s = []) /\
  subscriptions (after NgOnDestroy s) = [].
Proof.
  apply (C3_subscription_and_mode ∅ (Some true) [] (following_start first_page)
           [SetDarkMode; OsChange false; SetSystemMode]).
  reflexivity.
Defined.

(** ** C4: the choice of the user survives a reload *)

(** C4, counterexample: the record [[]] becomes the settings; after
    [setUserDefinedMode(true)], which returns, the array carries
    [darkMode = true] in memory but is persisted as [[]] again, and the
    next startup reads no [darkMode] from it. *)
Lemma C4_array_record_loses_choice :
  constructor array_page = (Normal tt, array_start) /\
  fst (perform (SetUserDefinedMode true) array_start) = Normal tt /\
  persisted (after (SetUserDefinedMode true) array_start) = Some (u16 "[]") /\
  (forall s2,
     constructor (page_load (localStorage (world (after (SetUserDefinedMode true) array_start)))
                    (Some false) []) = (Normal tt, s2) ->
     Get (settings (this s2)) DARK_MODE = Normal JUndefined) /\
  ~ round_trip true array_start.
Proof.
  split; [reflexivity|]. split; [reflexivity|]. split; [reflexivity|].
  assert (Hnext : forall s2,
     constructor (page_load (localStorage (world (after (SetUserDefinedMode true) array_start)))
                    (Some false) []) = (Normal tt, s2) ->
     Get (settings (this s2)) DARK_MODE = Normal JUndefined).
  { intros s2 H. vm_compute in H. injection H as <-. reflexivity. }
  split; [exact Hnext|].
  intros [_ H]. destruct (H (Some false) []) as (s2 & Hc & Hd).
  rewrite (Hnext s2 Hc) in Hd. discriminate.
Qed.

(** C4, as the code has it: for every boolean [d] and every state whose
    settings are a [ThemeSettings] record, [setUserDefinedMode(d)] returns,
    the settings then say [d], and a service constructed afterwards over
    the same store has settings that say [d] again. *)
Theorem C4_round_trip (d : bool) (s : State) :
  is_ThemeSettings (settings (this s)) ->
  fst (perform (SetUserDefinedMode d) s) = Normal tt /\
  persisted (after (SetUserDefinedMode d) s) = Some (record_text d) /\
  round_trip d s.
Proof.
  intros [x Hx]. unfold round_trip, persisted.
  destruct s as [[ls dv bc els sj rc] [st ds el] m]. cbn in Hx. subst st.
  unfold_ops. run_setModes.
  assert (Hput : Put (JObject [(DARK_MODE, x)]) DARK_MODE (JBool d)
                 = Normal (JObject [(DARK_MODE, JBool d)])) by reflexivity.
  destruct ds as [subject|]; cbn; rewrite Hput; cbn;
    unfold setLocalStorageItem; rewrite stringify_record; cbn;
    rewrite lookup_insert_eq.
  all: split; [reflexivity|]; split; [reflexivity|]; split; [reflexivity|].
  all: intros window classes; eexists; split;
    [ apply constructor_found with (record_text d);
      [apply lookup_insert_eq | apply parse_record | reflexivity]
    | reflexivity ].
Qed.

(** C4 for [d = true] in the state after a first visit. *)
Lemma C4_round_trip_witness :
  fst (perform (SetUserDefinedMode true) (following_start first_page)) = Normal tt /\
  persisted (after (SetUserDefinedMode true) (following_start first_page))
    = Some (record_text true) /\
  round_trip true (following_start first_page).
Proof.
  apply (C4_round_trip true (following_start first_page)).
  exists (JBool true). reflexivity.
Defined.

(** ** C5: follow the system again *)

Lemma shown_of (s : State) (b : bool) :
  stylesheet s = Some (if b then DARK_CSS else LIGHT_CSS) ->
  light_marker s = negb b ->
  shown_dark s = Some b.
Proof.
  unfold shown_dark. intros -> ->. destruct b; reflexivity.
Qed.

(** C5: in every state, whatever the preference of the operating system,
    [setSystemMode()] returns; after it no record is persisted under the
    key, and the page shows the theme that [isSystemDark()] reported when
    it was called, which is the preference of the operating system when
    there is a window. *)
Theorem C5_setSystemMode (s : State) :
  well_formed s ->
  exists v s',
    isSystemDark s = (Normal v, s) /\
    setSystemMode s = (Normal tt, s') /\
    persisted s' = None /\
    shown_dark s' = Some (ToBoolean v) /\
    (forall win, defaultView (world s) = Some win ->
                 v = JBool (prefersDark win) /\ shown_dark s' = Some (prefersDark win)).
Proof.
  intros Hwf. unfold persisted.
  open_state s; unfold isSystemDark, setSystemMode, bind; cbn.
  all: run_setMode; cbn.
  all: destruct (W Hwf) as (Hwf' & Hsheet & Hmark).
  all: do 2 eexists; split; [reflexivity|]; split; [reflexivity|]; cbn.
  all: split; [apply lookup_delete_eq|].
  all: split; [apply shown_of; assumption|].
  all: intros win Hwin;
    first [ discriminate Hwin
          | injection Hwin as <-; split; [reflexivity | apply shown_of; assumption] ].
Qed.

(** C5 in the state after a first visit. *)
Lemma C5_setSystemMode_witness :
  exists v s',
    isSystemDark (following_start first_page) = (Normal v, following_start first_page) /\
    setSystemMode (following_start first_page) = (Normal tt, s') /\
    persisted s' = None /\
    shown_dark s' = Some (ToBoolean v) /\
    (forall win, defaultView (world (following_start first_page)) = Some win ->
                 v = JBool (prefersDark win) /\ shown_dark s' = Some (prefersDark win)).
Proof.
  apply (C5_setSystemMode (following_start first_page)).
  exact I.
Defined.

(** ** C6: the persisted override wins over the operating system *)

Lemma page_load_well_formed store window classes (v : JsValue) (m : Mode) :
  well_formed
    {| world := page_load store window classes;
       this := {| settings := v; destructionSubject := None;
                  _kendouiStylesheetHtmlElement := None |};
       mode := m |}.
Proof. exact I. Qed.

(** C6: with the persisted record of [darkMode = false] in the store and an
    operating system that prefers dark, the constructor returns in override mode and
    subscribes to nothing; [apply()] then links the light stylesheet and
    sets the light marker class, and still nothing is subscribed. *)
Theorem C6_override_wins (store : gmap jsstring jsstring) (classes : list jsstring) :
  exists s0 s1,
    constructor (page_load (<[SETTINGS_KEY := record_text false]> store) (Some true) classes)
      = (Normal tt, s0) /\
    isSystemDark s0 = (Normal (JBool true), s0) /\
    mode s0 = Override /\
    subscriptions s0 = [] /\
    apply s0 = (Normal tt, s1) /\
    stylesheet s1 = Some (u16 "kendoui-light.css") /\
    light_marker s1 = true /\
    shown_dark s1 = Some false /\
    subscriptions s1 = [] /\
    destructionSubject (this s1) = None.
Proof.
  set (w := page_load (<[SETTINGS_KEY := record_text false]> store) (Some true) classes).
  assert (Hc := constructor_found w (record_text false) _
                  (lookup_insert_eq _ _ _) (parse_record false) eq_refl).
  set (s0 := {| world := w; this := _; mode := Override |}) in Hc.
  destruct (setMode_spec (JBool false) s0) as (s1 & E & L & W).
  destruct (W (page_load_well_formed _ _ _ _ _)) as (Hwf & Hsheet & Hmark).
  destruct L as (L1 & L2 & L3 & L4 & L5).
  exists s0, s1.
  split; [exact Hc|]. split; [reflexivity|]. split; [reflexivity|].
  split; [reflexivity|]. split; [exact E|]. split; [exact Hsheet|].
  split; [exact Hmark|]. split; [by apply (shown_of s1 false)|].
  split; [|by rewrite L4].
  unfold subscriptions. rewrite L2. reflexivity.
Qed.

(** ** C7: at most one subscription *)

(** C7: in every reachable state at most one subscription to the operating
    system is live; a second [setSystemMode()] in a row leaves the
    subscriptions of the first as they are, and with a window attached
    that is exactly one. *)
Theorem C7_at_most_one store window classes (s0 : State) (evs : list Event) :
  constructor (page_load store window classes) = (Normal tt, s0) ->
  let s := run_events evs s0 in
  (length (subscriptions s) <= 1)%nat /\
  subscriptions (after SetSystemMode (after SetSystemMode s))
    = subscriptions (after SetSystemMode s) /\
  (window ≠ None ->
   length (subscriptions (after SetSystemMode (after SetSystemMode s))) = 1%nat).
Proof.
  intros Hc s.
  assert (HI0 : Inv s0) by (eapply Inv_constructor, Hc).
  assert (HI : Inv s) by (apply Inv_run, HI0).
  assert (Hw : window ≠ None -> has_window s = true).
  { intros Hwin. unfold s. rewrite window_run by exact HI0.
    destruct (constructor_cases (page_load store window classes))
      as [H | [(text & v & Hget & Hparse & Hb) | (text & Hget & Hne & Hparse)]].
    - rewrite (constructor_fallback _ H) in Hc. injection Hc as <-.
      destruct window; [reflexivity | done].
    - rewrite (constructor_found _ _ _ Hget Hparse Hb) in Hc. injection Hc as <-.
      destruct window; [reflexivity | done].
    - rewrite (constructor_throws _ _ Hget Hne Hparse) in Hc. discriminate. }
  destruct HI as [_ Hsub _]. revert Hsub Hw. generalize s. clear.
  intros s Hsub Hw. unfold subscriptions, has_window in *.
  open_state s; unfold subscribed in Hsub; cbn in Hsub, Hw;
    try discriminate Hsub; subst; unfold_ops.
  all: run_setModes.
  all: repeat split; auto; intros Hwin; by apply Hw in Hwin.
Qed.

(** C7 on a first visit with a window, after an override and a teardown. *)
Lemma C7_at_most_one_witness :
  let s := run_events [SetLightMode; NgOnDestroy] (following_start first_page) in
  (length (subscriptions s) <= 1)%nat /\
  subscriptions (after SetSystemMode (after SetSystemMode s))
    = subscriptions (after SetSystemMode s) /\
  (Some true ≠ None ->
   length (subscriptions (after SetSystemMode (after SetSystemMode s))) = 1%nat).
Proof.
  apply (C7_at_most_one ∅ (Some true) [] (following_start first_page)
           [SetLightMode; NgOnDestroy]).
  reflexivity.
Defined.

(** ** C8: an override stops the subscription *)

(** C8: in every reachable state and for every boolean [d],
    [setUserDefinedMode(d)] leaves nothing subscribed; and whatever happens
    afterwards short of [setSystemMode()], nothing is subscribed and a
    change of the preference of the operating system writes nothing to
    the page: no renderer call, no change of the marker class or of the
    stylesheet. *)
Theorem C8_override_ignores_system store window classes (s0 : State)
    (before later : list Event) (d dark : bool) :
  constructor (page_load store window classes) = (Normal tt, s0) ->
  SetSystemMode ∉ later ->
  let s1 := after (SetUserDefinedMode d) (run_events before s0) in
  let s2 := run_events later s1 in
  subscriptions s1 = [] /\
  destructionSubject (this s1) = None /\
  subscriptions s2 = [] /\
  rendererCalls (world (after (OsChange dark) s2)) = rendererCalls (world s2) /\
  page (after (OsChange dark) s2) = page s2.
Proof.
  intros Hc Hno s1 s2.
  assert (HI : Inv (run_events before s0))
    by (eapply Inv_run, Inv_constructor, Hc).
  assert (H1 : subscriptions s1 = [])
    by (apply unsubscribed_by_setUserDefinedMode, HI).
  assert (H2 : subscriptions s2 = []) by (apply quiet_run; assumption).
  assert (HI1 : Inv s1) by (apply Inv_after, HI).
  assert (Hp := quiet_os_change dark s2 H2).
  split; [exact H1|]. split.
  - destruct HI1 as [_ Hsub _]. unfold subscribed in Hsub. rewrite H1 in Hsub.
    destruct (destructionSubject (this s1)); [discriminate | reflexivity].
  - split; [exact H2|]. split; [|exact Hp].
    unfold page in Hp. congruence.
Qed.

(** C8 on a first visit with a window. *)
Lemma C8_override_ignores_system_witness :
  let s1 := after (SetUserDefinedMode true)
              (run_events [Apply] (following_start first_page)) in
  let s2 := run_events [OsChange false; Apply; SetLightMode] s1 in
  subscriptions s1 = [] /\
  destructionSubject (this s1) = None /\
  subscriptions s2 = [] /\
  rendererCalls (world (after (OsChange true) s2)) = rendererCalls (world s2) /\
  page (after (OsChange true) s2) = page s2.
Proof.
  apply (C8_override_ignores_system ∅ (Some true) [] (following_start first_page)
           [Apply] [OsChange false; Apply; SetLightMode] true true).
  - reflexivity.
  - intros H. repeat (apply elem_of_cons in H as [H|H]; [discriminate H|]).
    by apply elem_of_nil in H.
Defined.

(** ** C9: no window *)

(** C9, counterexample: without a window [isSystemDark()] returns
    undefined, not false. *)
Lemma C9_headless_returns_undefined :
  defaultView (world (start_of headless_page)) = None /\
  fst (isSystemDark (start_of headless_page)) = Normal JUndefined /\
  fst (isSystemDark (start_of headless_page)) ≠ Normal (JBool false).
Proof. repeat split. discriminate. Qed.

(** C9, as the code has it: without a window [isSystemDark()] does not
    throw and changes nothing; it returns undefined, which is falsy, so
    that [setMode] does with it what it does with false; and
    [startSystemModeSynchronization()] subscribes to nothing and changes
    nothing. *)
Theorem C9_headless (s : State) :
  defaultView (world s) = None ->
  isSystemDark s = (Normal JUndefined, s) /\
  ToBoolean JUndefined = false /\
  setMode JUndefined s = setMode (JBool false) s /\
  startSystemModeSynchronization s = (Normal tt, s) /\
  subscriptions s = [].
Proof.
  intros Hdv. unfold isSystemDark, startSystemModeSynchronization, subscriptions, bind.
  cbn. rewrite Hdv. repeat split.
  destruct (destructionSubject (this s)); reflexivity.
Qed.

(** C9 in the state after a first visit without a window. *)
Lemma C9_headless_witness :
  isSystemDark (following_start headless_page)
    = (Normal JUndefined, following_start headless_page) /\
  ToBoolean JUndefined = false /\
  setMode JUndefined (following_start headless_page)
    = setMode (JBool false) (following_start headless_page) /\
  startSystemModeSynchronization (following_start headless_page)
    = (Normal tt, following_start headless_page) /\
  subscriptions (following_start headless_page) = [].
Proof.
  apply (C9_headless (following_start headless_page)).
  reflexivity.
Defined.

(** ** C10: a record without the field *)

(** C10: when the record deserializes to an object that has no [darkMode]
    property, the constructor takes it as the settings, in override mode
    and with nothing subscribed; [apply()] then reads undefined for
    [darkMode], and [setMode] links the light stylesheet and sets the
    light marker class. *)
Theorem C10_record_without_darkMode store window classes
    (text : jsstring) (props : list (jsstring * JsValue)) :
  store !! SETTINGS_KEY = Some text ->
  JSON.parse text = Normal (JObject props) ->
  lookup_own DARK_MODE props = None ->
  exists s0 s1,
    constructor (page_load store window classes) = (Normal tt, s0) /\
    settings (this s0) = JObject props /\
    mode s0 = Override /\
    subscriptions s0 = [] /\
    destructionSubject (this s0) = None /\
    settings_darkMode s0 = (Normal JUndefined, s0) /\
    apply s0 = setMode JUndefined s0 /\
    apply s0 = (Normal tt, s1) /\
    stylesheet s1 = Some (u16 "kendoui-light.css") /\
    light_marker s1 = true /\
    subscriptions s1 = [].
Proof.
  intros Hget Hparse Hlack.
  set (w := page_load store window classes).
  assert (Hc := constructor_found w text _ Hget Hparse eq_refl).
  set (s0 := {| world := w; this := _; mode := Override |}) in Hc.
  assert (Hd : Get (JObject props) DARK_MODE = Normal JUndefined)
    by (unfold Get; rewrite Hlack; reflexivity).
  assert (Ha : apply s0 = setMode JUndefined s0).
  { unfold apply, settings_darkMode, bind, lift. cbn. by rewrite Hd. }
  destruct (setMode_spec JUndefined s0) as (s1 & E & L & W).
  destruct (W (page_load_well_formed _ _ _ _ _)) as (Hwf & Hsheet & Hmark).
  destruct L as (L1 & L2 & L3 & L4 & L5).
  exists s0, s1.
  split; [exact Hc|]. split; [reflexivity|]. split; [reflexivity|].
  split; [by destruct window|]. split; [reflexivity|].
  split; [unfold settings_darkMode, bind, lift; cbn; by rewrite Hd|].
  split; [exact Ha|]. split; [by rewrite Ha|]. split; [exact Hsheet|].
  split; [exact Hmark|].
  unfold subscriptions. rewrite L2. by destruct window.
Qed.

(** C10 for the record of an empty object. *)
Lemma C10_record_without_darkMode_witness :
  exists s0 s1,
    constructor (page_load {[ SETTINGS_KEY := u16 "{}" ]} (Some true) []) = (Normal tt, s0) /\
    settings (this s0) = JObject [] /\
    mode s0 = Override /\
    subscriptions s0 = [] /\
    destructionSubject (this s0) = None /\
    settings_darkMode s0 = (Normal JUndefined, s0) /\
    apply s0 = setMode JUndefined s0 /\
    apply s0 = (Normal tt, s1) /\
    stylesheet s1 = Some (u16 "kendoui-light.css") /\
    light_marker s1 = true /\
    subscriptions s1 = [].
Proof.
  apply (C10_record_without_darkMode {[ SETTINGS_KEY := u16 "{}" ]} (Some true) []
           (u16 "{}") []); reflexivity.
Defined.

(** * More of the service *)

(** ** What a change of the operating system does *)

Lemma same_logic_trans (s1 s2 s3 : State) :
  same_logic s1 s2 -> same_logic s2 s3 -> same_logic s1 s3.
Proof.
  intros (a1 & a2 & a3 & a4 & a5) (b1 & b2 & b3 & b4 & b5).
  repeat split; congruence.
Qed.

(** The callback paints the page with what the event says, and touches
    nothing else. *)
Lemma on_change_spec (dark : bool) (s : State) :
  exists s',
    on_change (Some {| matches := dark |}) s = (Normal tt, s') /\ same_logic s s' /\
    (well_formed s ->
     well_formed s' /\
     stylesheet s' = Some (if dark then DARK_CSS else LIGHT_CSS) /\
     light_marker s' = negb dark).
Proof.
  unfold on_change, bind. cbn. apply (setMode_spec (JBool dark) s).
Qed.

(** However many listeners there are, the callbacks all return, and
    together they touch the page only; with one listener at least, the
    page shows what the event says. *)
Lemma dispatch_spec (dark : bool) (listeners : list nat) (s : State) :
  exists s',
    for_each listeners (fun _ => on_change (Some {| matches := dark |})) s
      = (Normal tt, s') /\
    same_logic s s' /\
    (listeners = [] -> s' = s) /\
    (well_formed s ->
     well_formed s' /\
     (listeners ≠ [] ->
      stylesheet s' = Some (if dark then DARK_CSS else LIGHT_CSS) /\
      light_marker s' = negb dark)).
Proof.
  revert s. induction listeners as [|l listeners IH]; intros s.
  - exists s. cbn. unfold ret. split; [reflexivity|]. split; [repeat split|].
    split; [reflexivity|]. intros Hwf. split; [exact Hwf | done].
  - destruct (on_change_spec dark s) as (s1 & E1 & L1 & W1).
    destruct (IH s1) as (s2 & E2 & L2 & N2 & W2).
    exists s2. cbn. unfold bind. rewrite E1, E2.
    split; [reflexivity|]. split; [eapply same_logic_trans; eassumption|].
    split; [discriminate|].
    intros Hwf. destruct (W1 Hwf) as (Hwf1 & Hs1 & Hm1).
    destruct (W2 Hwf1) as (Hwf2 & H2). split; [exact Hwf2|].
    intros _. destruct listeners as [|l' listeners].
    + rewrite (N2 eq_refl). auto.
    + apply H2. discriminate.
Qed.

(** A change of the preference of the operating system, in any state: the
    window takes the new preference and keeps its listeners; store,
    settings, subject and mode stay; the page is repainted when somebody
    listens and is left alone when nobody does. *)
Lemma os_change_spec (dark : bool) (s : State) :
  exists s',
    os_change dark s = (Normal tt, s') /\
    localStorage (world s') = localStorage (world s) /\
    this_logic s' = this_logic s /\
    mode s' = mode s /\
    subscriptions s' = subscriptions s /\
    has_window s' = has_window s /\
    (well_formed s ->
     well_formed s' /\
     (subscriptions s ≠ [] ->
      stylesheet s' = Some (if dark then DARK_CSS else LIGHT_CSS) /\
      light_marker s' = negb dark)) /\
    (subscriptions s = [] -> page s' = page s).
Proof.
  unfold os_change, bind, this_logic, subscriptions, has_window, page.
  destruct s as [[ls [[pd cl]|] bc els sj rc] [st ds el] m]; cbn.
  - match goal with |- context [for_each cl ?f ?s] =>
      destruct (dispatch_spec dark cl s) as (s' & E & L & N & W) end.
    exists s'. rewrite E.
    destruct L as (L1 & L2 & L3 & L4 & L5). cbn in L1, L2, L3, L4, L5.
    rewrite L1, L2, L3, L4, L5.
    split; [reflexivity|]. split; [reflexivity|]. split; [reflexivity|].
    split; [reflexivity|]. split; [reflexivity|]. split; [reflexivity|].
    split.
    + intros Hwf. destruct (W Hwf) as [Hwf' Hshown]. auto.
    + intros Hq. subst cl. rewrite (N eq_refl). reflexivity.
  - eexists. split; [reflexivity|]. repeat split; auto; done.
Qed.

(** ** The constructor *)

(** X1: the constructor writes nothing: whatever the store holds, and
    whether it returns or throws, the store, the classes of the body, the
    elements and the log of the renderer are as before, and no stylesheet
    element is held yet; only the subscription can be new, and without a
    window the world is as it was. *)
Theorem constructor_writes_nothing (w : World) :
  let s := snd (constructor w) in
  localStorage (world s) = localStorage w /\
  bodyClasses (world s) = bodyClasses w /\
  elements (world s) = elements w /\
  rendererCalls (world s) = rendererCalls w /\
  _kendouiStylesheetHtmlElement (this s) = None /\
  (defaultView w = None -> world s = w).
Proof.
  destruct (constructor_cases w)
    as [H | [(text & v & Hget & Hparse & Hb) | (text & Hget & Hne & Hparse)]].
  - rewrite (constructor_fallback _ H). unfold following_start.
    destruct w as [ls [[pd cl]|] bc els sj rc]; cbn; repeat split; congruence.
  - rewrite (constructor_found _ _ _ Hget Hparse Hb). cbn. repeat split.
  - rewrite (constructor_throws _ _ Hget Hne Hparse). cbn. repeat split.
Qed.

(** ** The store *)

(** X2: what [setLocalStorageItem] stores of a [ThemeSettings] record under
    any key, [getLocalStorageItem] reads back as that record, changing
    nothing; the other keys are not touched; and after
    [removeLocalStorageItem] the key reads as undefined. *)
Theorem storage_round_trip (key : jsstring) (b : bool) (s : State) :
  let record := JObject [(DARK_MODE, JBool b)] in
  let s1 := snd (setLocalStorageItem key record s) in
  let s2 := snd (removeLocalStorageItem key s1) in
  getLocalStorageItem key s1 = (Normal record, s1) /\
  (forall other, other ≠ key ->
     getLocalStorageItem other s1 = (fst (getLocalStorageItem other s), s1)) /\
  getLocalStorageItem key s2 = (Normal JUndefined, s2) /\
  (forall other, other ≠ key ->
     localStorage (world s2) !! other = localStorage (world s) !! other).
Proof.
  intros record s1 s2. unfold s2, s1, record.
  unfold getLocalStorageItem, setLocalStorageItem, removeLocalStorageItem, bind, lift.
  rewrite stringify_record. cbn.
  rewrite lookup_insert_eq, lookup_delete_eq.
  split; [|split; [|split]].
  - destruct b; reflexivity.
  - intros other Hne. rewrite lookup_insert_ne by done.
    destruct (localStorage (world s) !! other) as [[|c text]|]; reflexivity.
  - reflexivity.
  - intros other Hne. rewrite lookup_delete_ne, lookup_insert_ne by done. reflexivity.
Qed.

(** ** What the events leave alone *)

(** Any event but a change of the operating system, in any state. *)
Ltac any_state s :=
  destruct s as [[?ls [[?pd ?cl]|] ?bc ?els ?sj ?rc] [?st [?id|] ?el] ?m];
  unfold_ops;
  try (destruct (Get _ DARK_MODE); cbn);
  run_setModes;
  try (destruct (Put _ DARK_MODE _); cbn).

(** X3: the service writes to the store under the key [theme] only: no
    operation and no change of the operating system, in any state, changes
    what the store holds under another key. *)
Theorem only_theme_key (ev : Event) (s : State) (key : jsstring) :
  key ≠ SETTINGS_KEY ->
  localStorage (world (after ev s)) !! key = localStorage (world s) !! key.
Proof.
  intros Hne. destruct ev as [| | | | | | |d].
  8: { unfold after, perform. destruct (os_change_spec d s) as (s' & E & L & _).
       rewrite E. cbn. by rewrite L. }
  all: any_state s.
  all: rewrite ?lookup_insert_ne, ?lookup_delete_ne by done; reflexivity.
Qed.

Lemma only_theme_key_witness :
  localStorage (world (after SetDarkMode (following_start first_page))) !! u16 "language"
    = localStorage (world (following_start first_page)) !! u16 "language".
Proof.
  apply (only_theme_key SetDarkMode (following_start first_page) (u16 "language")).
  discriminate.
Defined.

(** X4: the settings change through [setUserDefinedMode], [setDarkMode] and
    [setLightMode] only: [apply], [setSystemMode], [isSystemDark],
    [ngOnDestroy] and a change of the operating system leave them as they
    are, so that neither of the last two updates [settings.darkMode]. *)
Theorem settings_change_by_override_only (ev : Event) (s : State) :
  is_override ev = false ->
  settings (this (after ev s)) = settings (this s).
Proof.
  intros Hev. destruct ev as [| | | | | | |d]; try discriminate Hev.
  5: { unfold after, perform. destruct (os_change_spec d s) as (s' & E & _ & L & _).
       rewrite E. cbn. unfold this_logic in L. congruence. }
  all: any_state s; reflexivity.
Qed.

Lemma settings_change_by_override_only_witness :
  settings (this (after SetSystemMode (following_start first_page)))
    = settings (this (following_start first_page)).
Proof.
  apply (settings_change_by_override_only SetSystemMode (following_start first_page)).
  reflexivity.
Defined.

(** ** The record and the settings *)

Lemma record_agrees_after (ev : Event) (s : State) :
  is_ThemeSettings (settings (this s)) ->
  record_agrees s -> record_agrees (after ev s).
Proof.
  intros [x Hx]. unfold record_agrees, persisted.
  assert (Hput : forall y, Put (JObject [(DARK_MODE, x)]) DARK_MODE (JBool y)
                 = Normal (JObject [(DARK_MODE, JBool y)])) by reflexivity.
  destruct ev as [| | | | | | |d].
  8: { unfold after, perform. destruct (os_change_spec d s) as (s' & E & L1 & L2 & L3 & _).
       rewrite E. cbn. unfold this_logic in L2. rewrite L1, L3.
       injection L2 as -> _. auto. }
  all: destruct s as [[ls [[pd cl]|] bc els sj rc] [st [id|] el] m];
    cbn in Hx; subst st; unfold_ops;
    try (destruct (Get _ DARK_MODE); cbn); run_setModes; rewrite ?Hput; cbn;
    unfold setLocalStorageItem; rewrite ?stringify_record; cbn;
    rewrite ?lookup_insert_eq, ?lookup_delete_eq; auto.
  all: right; eexists; repeat split; reflexivity.
Qed.

(** X5: when the store at startup has no record, or a serialized
    [ThemeSettings] record, then in every state reached from there the
    store has no record, or it has the serialized settings of the service:
    the record of a boolean, which is the [darkMode] of the settings in
    memory, in override mode. *)
Theorem record_is_serialized_settings store window classes (start : option bool)
    (s0 : State) (evs : list Event) :
  store !! SETTINGS_KEY = record_text <$> start ->
  constructor (page_load store window classes) = (Normal tt, s0) ->
  record_agrees (run_events evs s0).
Proof.
  intros Hstore Hc.
  assert (Hshape : forall evs, is_ThemeSettings (settings (this (run_events evs s0)))).
  { intros evs'. apply (ThemeSettings_reached store window classes); [|exact Hc].
    destruct start as [b|]; [right; by exists b | by left]. }
  assert (H0 : record_agrees s0).
  { set (w := page_load store window classes) in *.
    assert (Hs : localStorage w !! SETTINGS_KEY = record_text <$> start) by exact Hstore.
    destruct start as [b|].
    - change (localStorage w !! SETTINGS_KEY = Some (record_text b)) in Hs.
      rewrite (constructor_found w _ _ Hs (parse_record b) eq_refl) in Hc.
      injection Hc as <-. right. exists b. split; [exact Hs | split; reflexivity].
    - change (localStorage w !! SETTINGS_KEY = None) in Hs.
      assert (Hf : nothing_stored w) by (unfold nothing_stored; by rewrite Hs).
      rewrite (constructor_fallback w Hf) in Hc. injection Hc as <-.
      left. unfold persisted, following_start. destruct window; exact Hs. }
  clear Hc Hstore.
  induction evs as [|ev evs IH] using rev_ind; [exact H0|].
  unfold run_events in *. rewrite foldl_snoc.
  apply record_agrees_after; [apply (Hshape evs) | exact IH].
Qed.

(** X5 on a return visit with the record of [darkMode = false]. *)
Lemma record_is_serialized_settings_witness :
  record_agrees
    (run_events [SetDarkMode; SetSystemMode; SetLightMode]
       {| world := page_load {[ SETTINGS_KEY := record_text false ]} (Some true) [];
          this := {| settings := JObject [(DARK_MODE, JBool false)];
                     destructionSubject := None;
                     _kendouiStylesheetHtmlElement := None |};
          mode := Override |}).
Proof.
  apply (record_is_serialized_settings {[ SETTINGS_KEY := record_text false ]}
           (Some true) [] (Some false)); reflexivity.
Defined.

(** ** Teardown *)

(** X6: [ngOnDestroy] always returns, leaves the service without a subject,
    and touches nothing but the subscription: store, settings, mode and
    page stay. A second [ngOnDestroy] changes nothing at all. *)
Theorem ngOnDestroy_stops_once (s : State) :
  let s1 := after NgOnDestroy s in
  fst (ngOnDestroy s) = Normal tt /\
  destructionSubject (this s1) = None /\
  localStorage (world s1) = localStorage (world s) /\
  settings (this s1) = settings (this s) /\
  mode s1 = mode s /\
  page s1 = page s /\
  painted s1 = painted s /\
  after NgOnDestroy s1 = s1.
Proof.
  destruct s as [[ls [[pd cl]|] bc els sj rc] [st [id|] el] m];
    unfold_ops; repeat split.
Qed.

(** ** Painting *)

Lemma filter_filter_same {A} (P : A -> Prop) `{forall x, Decision (P x)} (l : list A) :
  filter P (filter P l) = filter P l.
Proof.
  induction l as [|a l IH]; [reflexivity|].
  rewrite (filter_cons P a l). destruct (decide (P a)) as [Ha|Ha]; [|exact IH].
  rewrite (filter_cons P a (filter P l)), decide_True by exact Ha. by rewrite IH.
Qed.

Lemma alter_twice (k v : jsstring) (i : nat) (l : list HTMLLinkElement) :
  alter (with_property k v) i (alter (with_property k v) i l)
    = alter (with_property k v) i l.
Proof.
  revert i. induction l as [|e l IH]; intros [|i]; cbn; try reflexivity.
  - unfold with_property. cbn. by rewrite insert_insert_eq.
  - f_equal. apply IH.
Qed.

(** X7: painting is idempotent: a second [setMode] with the same value
    leaves the classes of the body, the elements and the element of the
    service exactly as the first left them (only the log of the renderer
    grows), in any state; and so does a second [apply()]. *)
Theorem painting_is_idempotent (d : JsValue) (s : State) :
  painted (snd (setMode d (snd (setMode d s)))) = painted (snd (setMode d s)) /\
  painted (after Apply (after Apply s)) = painted (after Apply s).
Proof.
  assert (Hset : forall d s,
    painted (snd (setMode d (snd (setMode d s)))) = painted (snd (setMode d s))).
  { clear. intros d s. destruct s as [[ls dv bc els sj rc] [st ds el] m].
    unfold setMode, painted. destruct (ToBoolean d), el as [el|]; cbn.
    - by rewrite filter_filter_same, alter_twice.
    - by rewrite filter_filter_same, alter_twice.
    - rewrite alter_twice. repeat f_equal.
      destruct (decide (LIGHT_MODE_CSS_CLASS_NAME ∈ bc)) as [Hin|Hin].
      + by rewrite decide_True.
      + rewrite decide_True; [done|]. apply elem_of_app. right.
        by apply list_elem_of_singleton.
    - rewrite alter_twice. repeat f_equal.
      destruct (decide (LIGHT_MODE_CSS_CLASS_NAME ∈ bc)) as [Hin|Hin].
      + by rewrite decide_True.
      + rewrite decide_True; [done|]. apply elem_of_app. right.
        by apply list_elem_of_singleton. }
  split; [apply Hset|].
  unfold after, perform, apply, settings_darkMode, bind, lift. cbn.
  destruct (Get (settings (this s)) DARK_MODE) as [x|e] eqn:Hget; cbn.
  - destruct (setMode_spec x s) as (s1 & E & L & _). rewrite E. cbn.
    destruct L as (_ & _ & L3 & _). rewrite L3, Hget. cbn.
    specialize (Hset x s). rewrite E in Hset. cbn in Hset.
    destruct (setMode x s1) as [[[]|e] s2]; exact Hset.
  - rewrite Hget. reflexivity.
Qed.

(** ** The stylesheet element *)

Lemma created_snoc (calls : list RendererCall) (c : RendererCall) :
  created (calls ++ [c])
    = (created calls + match c with CreateElement _ => 1 | _ => 0 end)%nat.
Proof.
  induction calls as [|c' calls IH]; cbn.
  - destruct c; reflexivity.
  - destruct c'; cbn; rewrite IH; reflexivity.
Qed.

Lemma lazy_singleton_setMode (d : JsValue) (s : State) :
  lazy_singleton s -> lazy_singleton (snd (setMode d s)).
Proof.
  destruct s as [[ls dv bc els sj rc] [st ds el] m].
  unfold setMode, lazy_singleton.
  destruct (ToBoolean d), el as [el|]; cbn.
  all: rewrite ?created_snoc; cbn; rewrite ?Nat.add_0_r.
  all: try (intros (-> & Hc & e & -> & Hin & Hrel); cbn;
            split; [reflexivity|]; split; [exact Hc|];
            eexists; split; [reflexivity|]; split; [exact Hin | exact Hrel]).
  all: intros [-> ->]; cbn; split; [reflexivity|]; split; [reflexivity|];
    eexists; split; [reflexivity|]; split; [reflexivity|];
    cbn; apply lookup_insert_eq.
Qed.

Lemma lazy_singleton_after (ev : Event) (s : State) :
  Inv s -> lazy_singleton s -> lazy_singleton (after ev s).
Proof.
  intros [_ Hsub _] H. revert H.
  open_state s; unfold subscribed in Hsub; cbn in Hsub;
    try discriminate Hsub; subst; intros H; destruct ev; unfold_ops.
  all: try (destruct (Get st DARK_MODE); cbn).
  all: try match goal with
           | |- context [setMode ?d ?s'] =>
               let Hs := fresh "Hs" in
               assert (Hs := lazy_singleton_setMode d s' H);
               destruct (setMode_spec d s') as (s1 & E & L & _);
               rewrite E in Hs |- *; cbn in Hs;
               destruct s1 as [[? ? ? ? ? ?] [? ? ?] ?];
               unfold same_logic in L; cbn in L; destruct L as (-> & -> & -> & -> & ->);
               cbn
           end.
  all: try (destruct (Put st DARK_MODE _); cbn).
  all: first [exact H | exact Hs].
Qed.

Lemma lazy_singleton_cases (s : State) :
  lazy_singleton s <-> element_absent s \/ element_present s.
Proof.
  unfold lazy_singleton, element_absent, element_present.
  destruct (_kendouiStylesheetHtmlElement (this s)) as [el|]; split.
  - intros (-> & Hc & He). right. auto.
  - intros [[Hn _] | ([= ->] & Hc & He)]; [discriminate Hn | auto].
  - intros [He Hc]. left. auto.
  - intros [(_ & He & Hc) | (Hn & _)]; [auto | discriminate Hn].
Qed.

(** A paint leaves the element there, whether it had to create it or
    not. *)
Lemma present_after_setMode (d : JsValue) (s : State) :
  lazy_singleton s -> element_present (snd (setMode d s)).
Proof.
  intros H. assert (Hl := lazy_singleton_setMode d s H).
  apply lazy_singleton_cases in Hl as [(Hn & _) | Hp]; [|exact Hp].
  exfalso. revert Hn. clear.
  destruct s as [[ls dv bc els sj rc] [st ds el] m].
  unfold setMode. destruct (ToBoolean d), el as [el|]; discriminate.
Qed.

Ltac paint_with lemma H :=
  try match goal with
      | |- context [setMode ?d ?s'] =>
          let Hs := fresh "Hs" in
          assert (Hs := lemma d s' H);
          destruct (setMode_spec d s') as (s1 & E & L & _);
          rewrite E in Hs |- *; cbn in Hs;
          destruct s1 as [[? ? ? ? ? ?] [? ? ?] ?];
          unfold same_logic in L; cbn in L; destruct L as (-> & -> & -> & -> & ->);
          cbn
      end.

(** The operations that paint do create the element, when the settings can
    be read. *)
Lemma present_after_painter (ev : Event) (s : State) :
  Inv s -> lazy_singleton s ->
  (exists x, Get (settings (this s)) DARK_MODE = Normal x) ->
  painter ev = true -> element_present (after ev s).
Proof.
  intros [_ Hsub _] H [x Hx] Hev. revert H.
  open_state s; unfold subscribed in Hsub; cbn in Hsub;
    try discriminate Hsub; subst; cbn in Hx; intros H;
    destruct ev; try discriminate Hev; unfold_ops; rewrite ?Hx; cbn.
  all: paint_with present_after_setMode H.
  all: try (destruct (Put st DARK_MODE _); cbn).
  all: exact Hs.
Qed.

(** So does a change of the operating system, when somebody listens. *)
Lemma present_after_system_change (dark : bool) (s : State) :
  Inv s -> lazy_singleton s -> subscriptions s ≠ [] ->
  element_present (after (OsChange dark) s).
Proof.
  intros [_ Hsub _] H Hlive. revert H Hlive. unfold subscriptions.
  open_state s; unfold subscribed in Hsub; cbn in Hsub;
    try discriminate Hsub; subst; cbn; intros H Hlive; try done; unfold_ops.
  all: paint_with present_after_setMode H.
  all: exact Hs.
Qed.

(** Once there, the element stays. *)
Lemma present_after (ev : Event) (s : State) :
  Inv s -> element_present s -> element_present (after ev s).
Proof.
  intros HI Hp.
  assert (Hl : lazy_singleton (after ev s)).
  { apply lazy_singleton_after; [exact HI|]. apply lazy_singleton_cases. by right. }
  apply lazy_singleton_cases in Hl as [(Hn & _) | Hp']; [|exact Hp'].
  exfalso. assert (Hheld := proj1 Hp). revert Hn Hheld Hp.
  destruct HI as [_ Hsub _].
  open_state s; unfold subscribed in Hsub; cbn in Hsub;
    try discriminate Hsub; subst; cbn; intros Hn Hheld Hp; subst;
    revert Hn; destruct ev; unfold_ops.
  all: try (destruct (Get st DARK_MODE); cbn).
  all: try match goal with
           | |- context [setMode ?d ?s'] =>
               let Hs := fresh "Hs" in
               assert (Hs : element_present (snd (setMode d s')))
                 by (apply present_after_setMode; apply lazy_singleton_cases;
                     right; exact Hp);
               destruct (setMode_spec d s') as (s1 & E & L & _);
               rewrite E in Hs |- *; cbn in Hs;
               destruct s1 as [[? ? ? ? ? ?] [? ? ?] ?];
               unfold same_logic in L; cbn in L; destruct L as (-> & -> & -> & -> & ->);
               destruct Hs as (Hs & _); cbn in Hs; cbn
           end.
  all: try (destruct (Put st DARK_MODE _); cbn).
  all: congruence.
Qed.

Lemma present_run (evs : list Event) (s : State) :
  Inv s -> element_present s -> element_present (run_events evs s).
Proof.
  revert s. induction evs as [|ev evs IH]; intros s HI Hp; [exact Hp|].
  cbn. apply IH; [apply Inv_after, HI | by apply present_after].
Qed.

(** The settings of a constructed service are never null or undefined. *)
Lemma readable_after (ev : Event) (s : State) :
  Inv s ->
  (exists x, Get (settings (this s)) DARK_MODE = Normal x) ->
  exists x, Get (settings (this (after ev s))) DARK_MODE = Normal x.
Proof.
  intros [_ Hsub _] [x Hx].
  assert (Hput : forall v y o, Put v DARK_MODE y = Normal o ->
                               exists z, Get o DARK_MODE = Normal z).
  { clear. intros v y o H. destruct v; try discriminate H;
      injection H as <-; eexists; reflexivity. }
  open_state s; unfold subscribed in Hsub; cbn in Hsub;
    try discriminate Hsub; subst; cbn in Hx; destruct ev; unfold_ops;
    rewrite ?Hx; cbn.
  all: run_setModes.
  all: try (destruct (Put st DARK_MODE _) as [o|e] eqn:Ho; cbn;
            [exact (Hput _ _ _ Ho) |]).
  all: eauto.
Qed.

Lemma readable_constructor store window classes (s : State) :
  constructor (page_load store window classes) = (Normal tt, s) ->
  exists x, Get (settings (this s)) DARK_MODE = Normal x.
Proof.
  intros Hc.
  destruct (constructor_cases (page_load store window classes))
    as [Hn | [(text & v & Hget & Hparse & Hb) | (text & Hget & Hne & Hparse)]].
  - rewrite (constructor_fallback _ Hn) in Hc. injection Hc as <-.
    unfold following_start. destruct window; eexists; reflexivity.
  - rewrite (constructor_found _ _ _ Hget Hparse Hb) in Hc. injection Hc as <-.
    cbn. destruct v; try discriminate Hb; eexists; reflexivity.
  - rewrite (constructor_throws _ _ Hget Hne Hparse) in Hc. discriminate.
Qed.

Lemma absent_after_quiet (ev : Event) (s : State) :
  ev = IsSystemDark \/ ev = NgOnDestroy ->
  element_absent s -> element_absent (after ev s).
Proof.
  intros [-> | ->]; destruct s as [[ls [[pd cl]|] bc els sj rc] [st [id|] el] m];
    unfold_ops; intros H; exact H.
Qed.

(** X8: the stylesheet element is a lazy singleton. On a page load there is
    no element: the service holds none, none exists and the renderer was
    asked for none; this stays so while only [isSystemDark] and
    [ngOnDestroy] are called. Every [apply], [setUserDefinedMode],
    [setDarkMode], [setLightMode] and [setSystemMode], and every change of
    the operating system while a subscription is live, leaves the element
    there: the one element, appended to the head, with [rel] set to
    [stylesheet], created by the one [createElement] the renderer was ever
    asked for, and held by the service. Once there it stays there,
    whatever happens. In every reachable state the element is absent in
    this sense or present in this sense. *)
Theorem stylesheet_element_is_singleton store window classes (s0 : State)
    (evs : list Event) :
  constructor (page_load store window classes) = (Normal tt, s0) ->
  let s := run_events evs s0 in
  element_absent s0 /\
  (element_absent s \/ element_present s) /\
  (Forall (fun ev => ev = IsSystemDark \/ ev = NgOnDestroy) evs -> element_absent s) /\
  (Exists (fun ev => painter ev = true) evs -> element_present s) /\
  (forall ev, painter ev = true -> element_present (after ev s)) /\
  (forall dark, subscriptions s ≠ [] -> element_present (after (OsChange dark) s)) /\
  (element_present s -> forall ev, element_present (after ev s)).
Proof.
  intros Hc s.
  assert (HI0 : Inv s0) by (eapply Inv_constructor, Hc).
  assert (HR0 := readable_constructor _ _ _ _ Hc).
  assert (H0 : element_absent s0).
  { destruct (constructor_cases (page_load store window classes))
      as [Hn | [(text & v & Hget & Hparse & Hb) | (text & Hget & Hne & Hparse)]].
    - rewrite (constructor_fallback _ Hn) in Hc. injection Hc as <-.
      unfold element_absent, following_start. by destruct window.
    - rewrite (constructor_found _ _ _ Hget Hparse Hb) in Hc. injection Hc as <-.
      by unfold element_absent.
    - rewrite (constructor_throws _ _ Hget Hne Hparse) in Hc. discriminate. }
  assert (HL0 : lazy_singleton s0) by (apply lazy_singleton_cases; by left).
  clear Hc.
  assert (Hall : forall evs s0,
            Inv s0 -> lazy_singleton s0 ->
            (exists x, Get (settings (this s0)) DARK_MODE = Normal x) ->
            Inv (run_events evs s0) /\ lazy_singleton (run_events evs s0) /\
            (exists x, Get (settings (this (run_events evs s0))) DARK_MODE = Normal x) /\
            (Exists (fun ev => painter ev = true) evs ->
             element_present (run_events evs s0)) /\
            (element_absent s0 ->
             Forall (fun ev => ev = IsSystemDark \/ ev = NgOnDestroy) evs ->
             element_absent (run_events evs s0))).
  { clear. induction evs as [|ev evs IH]; intros s0 HI HL HR.
    - split; [exact HI|]. split; [exact HL|]. split; [exact HR|].
      split; [intros H; inversion H | auto].
    - destruct (IH (after ev s0) (Inv_after ev s0 HI)
                  (lazy_singleton_after ev s0 HI HL) (readable_after ev s0 HI HR))
        as (HI' & HL' & HR' & Hex & Hfa).
      change (run_events (ev :: evs) s0) with (run_events evs (after ev s0)).
      split; [exact HI'|]. split; [exact HL'|]. split; [exact HR'|]. split.
      + intros H. apply Exists_cons in H as [Hev | Hrest]; [|by apply Hex].
        apply present_run; [by apply Inv_after|]. by apply present_after_painter.
      + intros Ha H. apply Forall_cons in H as [Hev Hrest].
        apply Hfa; [by apply absent_after_quiet | exact Hrest]. }
  destruct (Hall evs s0 HI0 HL0 HR0) as (HI & HL & HR & Hex & Hfa).
  split; [exact H0|]. split; [by apply lazy_singleton_cases|].
  split; [by apply Hfa|]. split; [exact Hex|].
  split; [intros ev Hev; by apply present_after_painter|].
  split; [intros dark Hlive; by apply present_after_system_change|].
  intros Hp ev. by apply present_after.
Qed.

(** X8 on a first visit where the page is painted four times. *)
Lemma stylesheet_element_is_singleton_witness :
  let s := run_events [Apply; SetDarkMode; OsChange false; SetSystemMode]
             (following_start first_page) in
  element_absent (following_start first_page) /\
  (element_absent s \/ element_present s) /\
  (Forall (fun ev => ev = IsSystemDark \/ ev = NgOnDestroy)
     [Apply; SetDarkMode; OsChange false; SetSystemMode] -> element_absent s) /\
  (Exists (fun ev => painter ev = true)
     [Apply; SetDarkMode; OsChange false; SetSystemMode] -> element_present s) /\
  (forall ev, painter ev = true -> element_present (after ev s)) /\
  (forall dark, subscriptions s ≠ [] -> element_present (after (OsChange dark) s)) /\
  (element_present s -> forall ev, element_present (after ev s)).
Proof.
  apply (stylesheet_element_is_singleton ∅ (Some true) [] (following_start first_page)
           [Apply; SetDarkMode; OsChange false; SetSystemMode]).
  reflexivity.
Defined.

(** ** What is painted *)

(** X9: [apply()] paints what [settings.darkMode] says, by its truthiness,
    and touches the page only: the store, the window and its
    subscriptions, the settings, the subject and the mode stay. When the
    settings are null or undefined, reading the property throws a
    TypeError and nothing at all is changed. *)
Theorem apply_paints_settings (s : State) :
  well_formed s ->
  match Get (settings (this s)) DARK_MODE with
  | Normal darkMode =>
      exists s', apply s = (Normal tt, s') /\ same_logic s s' /\
                 well_formed s' /\ shown_dark s' = Some (ToBoolean darkMode)
  | Throw e => e = TypeError /\ apply s = (Throw TypeError, s)
  end.
Proof.
  intros Hwf. unfold apply, settings_darkMode, bind, lift. cbn.
  destruct (Get (settings (this s)) DARK_MODE) as [x|e] eqn:Hget.
  - destruct (setMode_spec x s) as (s' & E & L & W).
    destruct (W Hwf) as (Hwf' & Hsheet & Hmark).
    exists s'. repeat split; try apply L; auto using shown_of.
  - unfold Get in Hget. destruct (settings (this s)); try discriminate Hget;
      injection Hget as <-; auto.
Qed.

(** X9 on a first visit: the settings say dark, as the operating system
    did at startup. *)
Lemma apply_paints_settings_witness :
  match Get (settings (this (following_start first_page))) DARK_MODE with
  | Normal darkMode =>
      exists s', apply (following_start first_page) = (Normal tt, s') /\
                 same_logic (following_start first_page) s' /\
                 well_formed s' /\ shown_dark s' = Some (ToBoolean darkMode)
  | Throw e => e = TypeError /\
               apply (following_start first_page) = (Throw TypeError, following_start first_page)
  end.
Proof.
  apply (apply_paints_settings (following_start first_page)).
  exact I.
Defined.

(** X10: while a subscription is live, a change of the preference of the
    operating system repaints the page with the new preference, and that
    is all it does: the record, the settings, the subject, the mode and
    the subscriptions stay, so that [settings.darkMode] still says what it
    said before the change. *)
Theorem system_change_repaints (dark : bool) (s : State) :
  well_formed s -> subscriptions s ≠ [] ->
  let s' := after (OsChange dark) s in
  fst (perform (OsChange dark) s) = Normal tt /\
  shown_dark s' = Some dark /\
  well_formed s' /\
  persisted s' = persisted s /\
  settings (this s') = settings (this s) /\
  destructionSubject (this s') = destructionSubject (this s) /\
  mode s' = mode s /\
  subscriptions s' = subscriptions s.
Proof.
  intros Hwf Hsub. unfold after, perform, persisted.
  destruct (os_change_spec dark s) as (s' & E & L1 & L2 & L3 & L4 & _ & W & _).
  rewrite E. cbn. destruct (W Hwf) as (Hwf' & Hshown).
  destruct (Hshown Hsub) as (Hsheet & Hmark).
  unfold this_logic in L2. injection L2 as L2 L2'.
  repeat split; auto using shown_of; congruence.
Qed.

(** X10 on a first visit, where the constructor subscribed. *)
Lemma system_change_repaints_witness :
  let s' := after (OsChange false) (following_start first_page) in
  fst (perform (OsChange false) (following_start first_page)) = Normal tt /\
  shown_dark s' = Some false /\
  well_formed s' /\
  persisted s' = persisted (following_start first_page) /\
  settings (this s') = settings (this (following_start first_page)) /\
  destructionSubject (this s') = destructionSubject (this (following_start first_page)) /\
  mode s' = mode (following_start first_page) /\
  subscriptions s' = subscriptions (following_start first_page).
Proof.
  apply (system_change_repaints false (following_start first_page)).
  - exact I.
  - discriminate.
Defined.

(** X11: the theme at startup. After the constructor and the first
    [apply()] (which [AppComponent.ngOnInit] makes), a store without a
    record gives the preference of the operating system, light when there
    is no window, in follow mode; a store with a serialized
    [ThemeSettings] record gives the theme of the record whatever the
    operating system prefers, in override mode and with nothing
    subscribed. In both cases the store is as it was. *)
Theorem startup_theme store window classes (start : option bool) :
  store !! SETTINGS_KEY = record_text <$> start ->
  exists s0 s1,
    constructor (page_load store window classes) = (Normal tt, s0) /\
    apply s0 = (Normal tt, s1) /\
    shown_dark s1 = Some (default (default false window) start) /\
    mode s1 = match start with Some _ => Override | None => Following end /\
    (is_Some start -> subscriptions s1 = []) /\
    localStorage (world s1) = store.
Proof.
  intros Hstore.
  set (w := page_load store window classes).
  assert (Hpaint : forall s0 x,
            well_formed s0 ->
            Get (settings (this s0)) DARK_MODE = Normal x ->
            exists s1, apply s0 = (Normal tt, s1) /\ same_logic s0 s1 /\
                       shown_dark s1 = Some (ToBoolean x)).
  { intros s0 x Hwf Hget. unfold apply, settings_darkMode, bind, lift. cbn.
    rewrite Hget. destruct (setMode_spec x s0) as (s1 & E & L & W).
    destruct (W Hwf) as (_ & Hsheet & Hmark).
    exists s1. auto using shown_of. }
  destruct start as [b|].
  - assert (Hs : localStorage w !! SETTINGS_KEY = Some (record_text b)) by exact Hstore.
    assert (Hc := constructor_found w _ _ Hs (parse_record b) eq_refl).
    set (s0 := {| world := w; this := _; mode := Override |}) in Hc.
    destruct (Hpaint s0 (JBool b) I eq_refl) as (s1 & E & L & Hshown).
    destruct L as (L1 & L2 & L3 & L4 & L5).
    exists s0, s1. repeat split; auto.
    + unfold subscriptions. rewrite L2. by destruct window.
  - assert (Hs : localStorage w !! SETTINGS_KEY = None) by exact Hstore.
    assert (Hf : nothing_stored w) by (unfold nothing_stored; by rewrite Hs).
    assert (Hc := constructor_fallback w Hf).
    assert (Hwf : well_formed (following_start w)) by (by destruct window).
    assert (Hget : Get (settings (this (following_start w))) DARK_MODE
                   = Normal (match window with Some d => JBool d | None => JUndefined end))
      by (by destruct window).
    destruct (Hpaint (following_start w) _ Hwf Hget) as (s1 & E & L & Hshown).
    destruct L as (L1 & L2 & L3 & L4 & L5).
    exists (following_start w), s1. repeat split; auto.
    + rewrite Hshown. by destruct window.
    + rewrite L5. by destruct window.
    + intros [x Hx]. discriminate Hx.
    + rewrite L1. by destruct window.
Qed.

(** X11 on a return visit with the record of [darkMode = true] and an
    operating system that prefers light. *)
Lemma startup_theme_witness :
  exists s0 s1,
    constructor (page_load {[ SETTINGS_KEY := record_text true ]} (Some false) [])
      = (Normal tt, s0) /\
    apply s0 = (Normal tt, s1) /\
    shown_dark s1 = Some (default (default false (Some false)) (Some true)) /\
    mode s1 = Override /\
    (is_Some (Some true) -> subscriptions s1 = []) /\
    localStorage (world s1) = {[ SETTINGS_KEY := record_text true ]}.
Proof.
  apply (startup_theme {[ SETTINGS_KEY := record_text true ]} (Some false) [] (Some true)).
  apply lookup_singleton_eq.
Defined.

(** X12: the last choice wins. In a state whose settings are a
    [ThemeSettings] record, two calls of [setUserDefinedMode] in a row leave
    the record, the settings, the subject, the mode, the subscriptions,
    the stylesheet and the marker class as the second call alone would. *)
Theorem last_override_wins (d1 d2 : bool) (s : State) :
  is_ThemeSettings (settings (this s)) -> well_formed s ->
  observed (after (SetUserDefinedMode d2) (after (SetUserDefinedMode d1) s))
    = observed (after (SetUserDefinedMode d2) s) /\
  persisted (after (SetUserDefinedMode d2) (after (SetUserDefinedMode d1) s))
    = Some (record_text d2) /\
  shown_dark (after (SetUserDefinedMode d2) (after (SetUserDefinedMode d1) s))
    = Some d2.
Proof.
  intros [x Hx] Hwf.
  assert (Hput : forall y z, Put (JObject [(DARK_MODE, y)]) DARK_MODE (JBool z)
                 = Normal (JObject [(DARK_MODE, JBool z)])) by reflexivity.
  assert (Hone : forall d s, is_ThemeSettings (settings (this s)) -> well_formed s ->
    let s' := after (SetUserDefinedMode d) s in
    well_formed s' /\
    observed s' = (Some (record_text d), JObject [(DARK_MODE, JBool d)], None, Override,
                   match destructionSubject (this s) with
                   | Some subject => filter (fun n => n ≠ subject) (subscriptions s)
                   | None => subscriptions s
                   end,
                   Some (if d then DARK_CSS else LIGHT_CSS), negb d)).
  { clear - Hput. intros d s [x Hx] Hwf. unfold observed, persisted, subscriptions.
    destruct s as [[ls [[pd cl]|] bc els sj rc] [st [id|] el] m]; cbn in Hx; subst st;
      unfold_ops; run_setMode; cbn; rewrite Hput; cbn;
      unfold setLocalStorageItem; rewrite stringify_record; cbn;
      rewrite lookup_insert_eq; destruct (W Hwf) as (Hwf' & Hsheet & Hmark);
      (split; [exact Hwf'|]); repeat f_equal; assumption. }
  destruct (Hone d1 s (ex_intro _ x Hx) Hwf) as (Hwf1 & H1).
  assert (Hs1 : is_ThemeSettings (settings (this (after (SetUserDefinedMode d1) s)))).
  { unfold observed in H1. injection H1 as _ Hset _. exists (JBool d1).
    congruence. }
  destruct (Hone d2 _ Hs1 Hwf1) as (Hwf2 & H2).
  destruct (Hone d2 s (ex_intro _ x Hx) Hwf) as (_ & H2').
  assert (Hobs : observed (after (SetUserDefinedMode d2) (after (SetUserDefinedMode d1) s))
                 = observed (after (SetUserDefinedMode d2) s)).
  { rewrite H2, H2'. unfold observed in H1.
    injection H1 as _ _ Hd Hm Hsubs _ _. rewrite Hd, Hsubs.
    destruct (destructionSubject (this s)); reflexivity. }
  split; [exact Hobs|].
  unfold observed in H2. injection H2 as Hp _ _ _ _ Hsheet Hmark.
  split; [exact Hp|]. by apply shown_of.
Qed.

(** X12 on a first visit: dark, then light. *)
Lemma last_override_wins_witness :
  observed (after (SetUserDefinedMode false)
              (after (SetUserDefinedMode true) (following_start first_page)))
    = observed (after (SetUserDefinedMode false) (following_start first_page)) /\
  persisted (after (SetUserDefinedMode false)
               (after (SetUserDefinedMode true) (following_start first_page)))
    = Some (record_text false) /\
  shown_dark (after (SetUserDefinedMode false)
                (after (SetUserDefinedMode true) (following_start first_page)))
    = Some false.
Proof.
  apply (last_override_wins true false (following_start first_page)).
  - exists (JBool true). reflexivity.
  - exact I.
Defined.

(** X13: when the settings cannot take the property (a primitive read from
    the store, or null or undefined), [setUserDefinedMode] throws a
    TypeError half way: the page is painted with the choice and the subject
    is dropped, but the settings, the record in the store and the mode are
    what they were. *)
Theorem override_fails_half_way (d : bool) (s : State) :
  well_formed s ->
  Put (settings (this s)) DARK_MODE (JBool d) = Throw TypeError ->
  let s' := after (SetUserDefinedMode d) s in
  fst (perform (SetUserDefinedMode d) s) = Throw TypeError /\
  shown_dark s' = Some d /\
  destructionSubject (this s') = None /\
  settings (this s') = settings (this s) /\
  localStorage (world s') = localStorage (world s) /\
  mode s' = mode s.
Proof.
  intros Hwf Hput.
  destruct s as [[ls [[pd cl]|] bc els sj rc] [st [id|] el] m]; cbn in Hput;
    unfold_ops; run_setMode; cbn; rewrite Hput; cbn;
    destruct (W Hwf) as (Hwf' & Hsheet & Hmark);
    repeat split; by apply shown_of.
Qed.

(** X13 with the settings [true], as the record [true] leaves them. *)
Lemma override_fails_half_way_witness :
  let s := {| world := page_load {[ SETTINGS_KEY := u16 "true" ]} (Some false) [];
              this := {| settings := JBool true; destructionSubject := None;
                         _kendouiStylesheetHtmlElement := None |};
              mode := Override |} in
  let s' := after (SetUserDefinedMode false) s in
  fst (perform (SetUserDefinedMode false) s) = Throw TypeError /\
  shown_dark s' = Some false /\
  destructionSubject (this s') = None /\
  settings (this s') = settings (this s) /\
  localStorage (world s') = localStorage (world s) /\
  mode s' = mode s.
Proof.
  apply (override_fails_half_way false
           {| world := page_load {[ SETTINGS_KEY := u16 "true" ]} (Some false) [];
              this := {| settings := JBool true; destructionSubject := None;
                         _kendouiStylesheetHtmlElement := None |};
              mode := Override |}).
  - exact I.
  - reflexivity.
Defined.

(** X14: the renderer calls of a paint, in order. [setMode] first adds or
    removes the marker class on the body; when the service holds no
    element yet it then creates a [link] element, sets its [rel] to
    [stylesheet] and appends it to the head; last it sets the [href] of
    the element. Nothing else is asked of the renderer. *)
Theorem setMode_renderer_calls (d : JsValue) (s : State) :
  let class_call := if ToBoolean d then RemoveClass LIGHT_MODE_CSS_CLASS_NAME
                    else AddClass LIGHT_MODE_CSS_CLASS_NAME in
  let css := if ToBoolean d then DARK_CSS else LIGHT_CSS in
  rendererCalls (world (snd (setMode d s))) =
    rendererCalls (world s) ++
    match _kendouiStylesheetHtmlElement (this s) with
    | Some el => [class_call; SetProperty el (u16 "href") css]
    | None =>
        let el := length (elements (world s)) in
        [class_call; CreateElement (u16 "link");
         SetAttribute el (u16 "rel") (u16 "stylesheet"); AppendChild el;
         SetProperty el (u16 "href") css]
    end.
Proof.
  destruct s as [[ls dv bc els sj rc] [st ds el] m].
  unfold setMode. destruct (ToBoolean d), el as [el|]; cbn;
    rewrite <- ?app_assoc; reflexivity.
Qed.

(** ** Reload *)

(** X15: follow mode survives a reload. After [setSystemMode()], in any
    state, a service constructed on a later page load over the same store
    finds no record: it returns in follow mode, with settings that say
    what the operating system prefers then (undefined without a window),
    and subscribed when there is a window. *)
Theorem follow_survives_reload (s : State) (window : option bool) (classes : list jsstring) :
  let w := page_load (localStorage (world (after SetSystemMode s))) window classes in
  exists s2,
    constructor w = (Normal tt, s2) /\
    mode s2 = Following /\
    persisted s2 = None /\
    Get (settings (this s2)) DARK_MODE
      = Normal (match window with Some dark => JBool dark | None => JUndefined end) /\
    subscriptions s2 = match window with Some _ => [0%nat] | None => [] end.
Proof.
  intros w.
  assert (Hnone : localStorage w !! SETTINGS_KEY = None).
  { unfold w. cbn. any_state s; apply lookup_delete_eq. }
  assert (Hf : nothing_stored w) by (unfold nothing_stored; by rewrite Hnone).
  exists (following_start w). split; [apply constructor_fallback, Hf|].
  unfold persisted, following_start. destruct window; cbn; repeat split; exact Hnone.
Qed.
